(** * istio-dns01-bind9: the multi-server DNS-01 solver

    A shallow embedding of the three Go layers of the webhook

      - [dns.RFC2136Client]      (operator/internal/dns/rfc2136.go)
      - [webhook.MultiServerDNS] (operator/internal/webhook/multi_server.go)
      - [webhook.DNS01Solver]    (operator/internal/webhook/dns01_handler.go)

    Every Go function that logs, reads the secret store or talks to the
    network is a computation in the trace monad [IO]: it returns the list of
    events it performed together with its Go return value.  Go's [error]
    results are [option error] ([None] is [nil]).  The libraries the code
    calls (zap, encoding/json, miekg/dns, client-go) are not part of the
    repository; what the code relies on is written out in the modules
    [zap], [json], [dns] and [kubernetes] below, and everything that the
    code does not decide (what the library's exchange with a server comes
    back with, random message ids, the clock, the order in which goroutines
    finish) is a field of [World]. *)

From Stdlib Require Import ZArith List String Ascii Bool Lia Permutation DecimalString.
From Stdlib.Strings Require Import Byte.
Import ListNotations.

Open Scope string_scope.
Open Scope list_scope.
Open Scope Z_scope.

Infix "+++" := String.append (right associativity, at level 60).

(** ** Go values: errors and [fmt] *)

(** A Go [error].  [errorString] is what [errors.New] and a [fmt.Errorf]
    without [%w] build (and what an error of a library looks like from
    here: a message); [wrapError] is what [fmt.Errorf] builds around a [%w]
    operand: the formatted message and the wrapped cause. *)
Inductive error : Type :=
| errorString (s : string)
| wrapError (msg : string) (err : error).

Definition Error (e : error) : string :=
  match e with
  | errorString s => s
  | wrapError msg _ => msg
  end.

Definition Unwrap (e : error) : option error :=
  match e with
  | errorString _ => None
  | wrapError _ err => Some err
  end.

(** Go's [(T, error)] results. *)
Inductive result (A : Type) : Type :=
| Ok (a : A)
| Err (e : error).
Arguments Ok {A} a.
Arguments Err {A} e.

Module fmt.

(** [%d] of an [int]. *)
Definition d (z : Z) : string := NilZero.string_of_int (Z.to_int z).

Fixpoint join (sep : string) (l : list string) : string :=
  match l with
  | [] => ""
  | [x] => x
  | x :: rest => x +++ sep +++ join sep rest
  end.

(** [%v] of a [[]error]: the messages between brackets, separated by one
    space; a nil slice prints as [[]]. *)
Definition v_errors (errs : list error) : string :=
  "[" +++ join " " (map Error errs) +++ "]".

End fmt.

(** [needle] occurs in [hay]. *)
Definition Contains (hay needle : string) : Prop :=
  exists pre post, hay = pre +++ needle +++ post.

(** ** zap: structured log entries *)

Module zap.

Inductive Level : Type := InfoLevel | WarnLevel | ErrorLevel.

Inductive Field : Type :=
| String (key val : string)
| Strings (key : string) (vals : list string)
| Int (key : string) (val : Z)
| Error (err : error).

Record Entry : Type := mkEntry
  { level : Level; message : string; fields : list Field }.

End zap.

(** ** miekg/dns: messages, names and the client the code configures *)

Module dns.

Definition TypeSOA : Z := 6.
Definition TypeTXT : Z := 16.
Definition TypeTSIG : Z := 250.
Definition ClassINET : Z := 1.
Definition ClassANY : Z := 255.
Definition OpcodeUpdate : Z := 5.
Definition RcodeSuccess : Z := 0.

(** [dns.Question]; its [Name] field is [qName] here, [Name] being the
    field of [RR_Header]. *)
Record Question : Type := mkQuestion
  { qName : string; Qtype : Z; Qclass : Z }.

Record RR_Header : Type := mkHeader
  { Name : string; Rrtype : Z; Class : Z; Ttl : Z; Rdlength : Z }.

(** The three kinds of record the code builds.  [ANY] has no rdata. *)
Inductive RData : Type :=
| TXT (Txt : list string)
| ANY
| TSIG (Algorithm : string) (TimeSigned : Z) (Fudge : Z) (OrigId : Z).

Record RR : Type := mkRR { Hdr : RR_Header; Data : RData }.

(** [dns.Msg]: the header fields the code reads or writes, and the four
    sections (the field [Question] of the library is [Questions] here). *)
Record Msg : Type := mkMsg
  { Id : Z;
    Response : bool;
    Opcode : Z;
    Truncated : bool;
    Rcode : Z;
    Compress : bool;
    Questions : list Question;
    Answer : list RR;
    Ns : list RR;
    Extra : list RR }.

(** [new(dns.Msg)] *)
Definition new_Msg : Msg :=
  mkMsg 0 false 0 false 0 false [] [] [] [].

(** [dns.Client]: [Net] is the transport, the empty string (the zero
    value) and ["udp"] mean UDP, ["tcp"] means TCP; [Timeout] is a
    [time.Duration] in nanoseconds; [TsigSecret] maps key names to
    secrets. *)
Record Client : Type := mkClient
  { Net : string; Timeout : Z; TsigSecret : list (string * string) }.

(** [dns.IsFqdn]: the name ends with a dot that is not escaped, that is,
    the dot is preceded by an even number of backslashes (zero in every
    name that has no backslash). *)
Fixpoint leading_backslashes (l : list ascii) : nat :=
  match l with
  | "\"%char :: rest => S (leading_backslashes rest)
  | _ => O
  end.

Definition IsFqdn (s : string) : bool :=
  match rev (list_ascii_of_string s) with
  | "."%char :: before => Nat.even (leading_backslashes before)
  | _ => false
  end.

(** [dns.Fqdn] *)
Definition Fqdn (s : string) : string :=
  if IsFqdn s then s else s +++ ".".

(** [Msg.SetUpdate]; [id] is the value [dns.Id()] draws. *)
Definition SetUpdate (id : Z) (z : string) (m : Msg) : Msg :=
  mkMsg id false OpcodeUpdate (Truncated m) (Rcode m) false
        [mkQuestion z TypeSOA ClassINET]
        (Answer m) (Ns m) (Extra m).

Definition set_Class (c : Z) (r : RR) : RR :=
  mkRR (mkHeader (Name (Hdr r)) (Rrtype (Hdr r)) c (Ttl (Hdr r))
                 (Rdlength (Hdr r)))
       (Data r).

(** [Msg.Insert]: RFC 2136 section 2.5.1, every record gets the class
    of the zone and is appended to the Update section.  The library
    panics when the Question section is empty; both callers run
    [SetUpdate] first, so that branch is dead here and leaves the message
    as it is. *)
Definition Insert (rr : list RR) (u : Msg) : Msg :=
  match Questions u with
  | [] => u
  | q :: _ =>
      mkMsg (Id u) (Response u) (Opcode u) (Truncated u) (Rcode u)
            (Compress u) (Questions u) (Answer u)
            (Ns u ++ map (set_Class (Qclass q)) rr) (Extra u)
  end.

(** [Msg.RemoveRRset]: RFC 2136 section 2.5.2, for every record an
    [ANY] record of the same name and type, class ANY, ttl 0. *)
Definition RemoveRRset (rr : list RR) (u : Msg) : Msg :=
  mkMsg (Id u) (Response u) (Opcode u) (Truncated u) (Rcode u)
        (Compress u) (Questions u) (Answer u)
        (Ns u ++ map (fun r => mkRR (mkHeader (Name (Hdr r)) (Rrtype (Hdr r))
                                              ClassANY 0 0) ANY) rr)
        (Extra u).

(** [Msg.SetTsig]: a TSIG stub in the Additional section; the MAC is
    computed when the message is sent, from [Client.TsigSecret]. *)
Definition SetTsig (z algo : string) (fudge timesigned : Z) (m : Msg) : Msg :=
  mkMsg (Id m) (Response m) (Opcode m) (Truncated m) (Rcode m)
        (Compress m) (Questions m) (Answer m) (Ns m)
        (Extra m ++ [mkRR (mkHeader z TypeTSIG ClassANY 0 0)
                          (TSIG algo (timesigned mod 2 ^ 64) fudge (Id m))]).

End dns.

(** [uint32(x)] of a Go [int]. *)
Definition uint32 (x : Z) : Z := x mod 2 ^ 32.

(** ** The trace monad *)

(** What a run does that can be observed from outside: a log entry, a read
    of a secret, and one call of the library's [Client.ExchangeContext]
    (one message handed to one address over the transport of the client). *)
Inductive Event : Type :=
| Log (e : zap.Entry)
| SecretGet (namespace name : string)
| Exchange (c : dns.Client) (m : dns.Msg) (address : string).

Definition IO (A : Type) : Type := (list Event * A)%type.

Definition ret {A : Type} (a : A) : IO A := ([], a).

Definition bind {A B : Type} (m : IO A) (k : A -> IO B) : IO B :=
  (fst m ++ fst (k (snd m)), snd (k (snd m))).

Notation "x <- c1 ;; c2" := (bind c1 (fun x => c2))
  (at level 61, c1 at next level, right associativity).
Notation "c1 ;; c2" := (bind c1 (fun _ => c2))
  (at level 61, right associativity).

Definition trace {A : Type} (m : IO A) : list Event := fst m.
Definition returned {A : Type} (m : IO A) : A := snd m.

Definition Info (msg : string) (fields : list zap.Field) : IO unit :=
  ([Log (zap.mkEntry zap.InfoLevel msg fields)], tt).
Definition Warn (msg : string) (fields : list zap.Field) : IO unit :=
  ([Log (zap.mkEntry zap.WarnLevel msg fields)], tt).
Definition Error_ (msg : string) (fields : list zap.Field) : IO unit :=
  ([Log (zap.mkEntry zap.ErrorLevel msg fields)], tt).

(** ** The outside world *)

(** What the code does not decide during one single-server call: the
    message id [dns.Id()] draws, the clock [time.Now().Unix()] reads, and
    what the library's [ExchangeContext] returns for the client, message
    and address it is given.  That call is the library at work as much as
    the network: it signs the message with the secret of the client, then
    writes it, reads the answer and checks its signature; it comes back
    with the reply, or with the error of any of these steps (a key name
    that is not fully qualified, a secret that is not base64, a timeout, a
    bad signature). *)
Record Peer : Type := mkPeer
  { dns_Id : Z;
    time_Now_Unix : Z;
    exchange : dns.Client -> dns.Msg -> string -> result dns.Msg }.

(** The world of one coordinator call: goroutine [i] (the one started for
    the i-th configured server) meets [peer i]; [finish] drives the order in
    which the goroutines finish, see [wg_Wait]. *)
Record World : Type := mkWorld
  { peer : nat -> Peer;
    finish : nat -> nat }.

Definition ExchangeContext (p : Peer) (c : dns.Client) (m : dns.Msg)
    (address : string) : IO (result dns.Msg) :=
  ([Exchange c m address], exchange p c m address).

(** ** client-go: the secret store *)

Module kubernetes.

(** [corev1.Secret]: the [Data] map. *)
Record Secret : Type := mkSecret { Data : list (string * list byte) }.

(** [kubernetes.Interface], as far as the solver uses it:
    [CoreV1().Secrets(namespace).Get(ctx, name, opts)]. *)
Record Interface : Type := mkInterface
  { Secrets_Get : string -> string -> result Secret }.

End kubernetes.

(** [m[key]] of a Go map, with its [ok]. *)
Fixpoint lookup {A : Type} (key : string) (m : list (string * A)) : option A :=
  match m with
  | [] => None
  | (k, a) :: rest => if String.eqb k key then Some a else lookup key rest
  end.

(** ** The configuration and its JSON document *)

(** [webhook.Config] *)
Record Config : Type := mkConfig
  { Servers : list string;
    Zone : string;
    TSIGKeyName : string;
    TSIGAlgorithm : string;
    TSIGSecretName : string;
    TSIGSecretKey : string;
    TTL : Z }.

Module json.

(** What a JSON document says about the seven fields of [Config]: for each
    field, the value the document gives it, if it gives one (a JSON null
    gives a text or the integer no value, and gives the list the empty
    list).  Reading the bytes (syntax, matching of keys, types of the
    values, range of the integer) is the library's; it is the
    [json_decode] of [Lib]. *)
Record Doc : Type := mkDoc
  { servers : option (list string);
    zone : option string;
    tsigKeyName : option string;
    tsigAlgorithm : option string;
    tsigSecretName : option string;
    tsigSecretKey : option string;
    ttl : option Z }.

Definition set {A : Type} (field : option A) (old : A) : A :=
  match field with
  | Some a => a
  | None => old
  end.

(** The fields the document gives are stored, the others keep the value
    they have. *)
Definition store (doc : Doc) (config : Config) : Config :=
  mkConfig (set (servers doc) (Servers config))
           (set (zone doc) (Zone config))
           (set (tsigKeyName doc) (TSIGKeyName config))
           (set (tsigAlgorithm doc) (TSIGAlgorithm config))
           (set (tsigSecretName doc) (TSIGSecretName config))
           (set (tsigSecretKey doc) (TSIGSecretKey config))
           (set (ttl doc) (TTL config)).

End json.

(** The pure functions of the libraries that the code calls and that are
    taken as they come: the table [dns.RcodeToString] (a missing entry
    reads as the empty string) and the decoder of encoding/json. *)
Record Lib : Type := mkLib
  { RcodeToString : Z -> string;
    json_decode : list byte -> result json.Doc }.

(** [json.Unmarshal(data, config)] *)
Definition json_Unmarshal (lib : Lib) (data : list byte) (config : Config)
    : result Config :=
  match json_decode lib data with
  | Err e => Err e
  | Ok doc => Ok (json.store doc config)
  end.

(** ** internal/dns: the single-server client *)

Module RFC2136Client.

Record t : Type := mk
  { server : string;
    zone : string;
    tsigKey : string;
    tsigAlg : string;
    tsigSec : string;
    timeout : Z }.

Definition NewRFC2136Client (server zone tsigKey tsigAlg tsigSec : string) : t :=
  mk server zone tsigKey tsigAlg tsigSec (10 * 1000000000).

(** The [dns.Client] both operations build: [new(dns.Client)] with
    [Timeout] and [TsigSecret] set; [Net] keeps its zero value. *)
Definition new_Client (c : t) : dns.Client :=
  dns.mkClient "" (timeout c) [(tsigKey c, tsigSec c)].

(** The message of [AddTXTRecord]. *)
Definition add_msg (c : t) (p : Peer) (fqdn value : string) (ttl : Z) : dns.Msg :=
  let msg := dns.SetUpdate (dns_Id p) (dns.Fqdn (zone c)) dns.new_Msg in
  let rr := dns.mkRR (dns.mkHeader (dns.Fqdn fqdn) dns.TypeTXT dns.ClassINET
                                   (uint32 ttl) 0)
                     (dns.TXT [value]) in
  let msg := dns.Insert [rr] msg in
  dns.SetTsig (tsigKey c) (tsigAlg c) 300 (time_Now_Unix p) msg.

Definition AddTXTRecord (lib : Lib) (c : t) (p : Peer)
    (fqdn value : string) (ttl : Z) : IO (option error) :=
  Info "Adding TXT record"
       [zap.String "fqdn" fqdn; zap.String "value" value;
        zap.String "server" (server c); zap.String "zone" (zone c)] ;;
  let msg := add_msg c p fqdn value ttl in
  let client := new_Client c in
  r <- ExchangeContext p client msg (server c +++ ":53") ;;
  match r with
  | Err err =>
      Error_ "Failed to send DNS update"
             [zap.String "fqdn" fqdn; zap.String "server" (server c);
              zap.Error err] ;;
      ret (Some (wrapError ("failed to send DNS update to " +++ server c
                            +++ ": " +++ Error err) err))
  | Ok reply =>
      if negb (dns.Rcode reply =? dns.RcodeSuccess) then
        Error_ "DNS update failed"
               [zap.String "fqdn" fqdn; zap.String "server" (server c);
                zap.Int "rcode" (dns.Rcode reply);
                zap.String "rcode_name" (RcodeToString lib (dns.Rcode reply))] ;;
        ret (Some (errorString ("DNS update failed: "
                                +++ RcodeToString lib (dns.Rcode reply)
                                +++ " (rcode: " +++ fmt.d (dns.Rcode reply)
                                +++ ")")))
      else
        Info "TXT record added successfully"
             [zap.String "fqdn" fqdn; zap.String "server" (server c)] ;;
        ret None
  end.

(** The message of [DeleteTXTRecord]. *)
Definition delete_msg (c : t) (p : Peer) (fqdn : string) : dns.Msg :=
  let msg := dns.SetUpdate (dns_Id p) (dns.Fqdn (zone c)) dns.new_Msg in
  let rr := dns.mkRR (dns.mkHeader (dns.Fqdn fqdn) dns.TypeTXT dns.ClassINET
                                   0 0)
                     (dns.TXT []) in
  let msg := dns.RemoveRRset [rr] msg in
  dns.SetTsig (tsigKey c) (tsigAlg c) 300 (time_Now_Unix p) msg.

Definition DeleteTXTRecord (lib : Lib) (c : t) (p : Peer)
    (fqdn : string) : IO (option error) :=
  Info "Deleting TXT record"
       [zap.String "fqdn" fqdn; zap.String "server" (server c);
        zap.String "zone" (zone c)] ;;
  let msg := delete_msg c p fqdn in
  let client := new_Client c in
  r <- ExchangeContext p client msg (server c +++ ":53") ;;
  match r with
  | Err err =>
      Error_ "Failed to send DNS delete"
             [zap.String "fqdn" fqdn; zap.String "server" (server c);
              zap.Error err] ;;
      ret (Some (wrapError ("failed to send DNS delete to " +++ server c
                            +++ ": " +++ Error err) err))
  | Ok reply =>
      if negb (dns.Rcode reply =? dns.RcodeSuccess) then
        Error_ "DNS delete failed"
               [zap.String "fqdn" fqdn; zap.String "server" (server c);
                zap.Int "rcode" (dns.Rcode reply);
                zap.String "rcode_name" (RcodeToString lib (dns.Rcode reply))] ;;
        ret (Some (errorString ("DNS delete failed: "
                                +++ RcodeToString lib (dns.Rcode reply)
                                +++ " (rcode: " +++ fmt.d (dns.Rcode reply)
                                +++ ")")))
      else
        Info "TXT record deleted successfully"
             [zap.String "fqdn" fqdn; zap.String "server" (server c)] ;;
        ret None
  end.

End RFC2136Client.

(** ** internal/webhook: the coordinator *)

(** The goroutines of one fan-out, each with the index of its server, in
    the order of the [range] loop. *)
Definition indexed {A : Type} (l : list A) : list (nat * A) :=
  combine (seq 0 (List.length l)) l.

Fixpoint remove_nth {A : Type} (k : nat) (l : list A) : list A :=
  match l, k with
  | [], _ => []
  | _ :: rest, O => rest
  | x :: rest, S k' => x :: remove_nth k' rest
  end.

(** The order in which the goroutines finish: at step [step], with
    [running] still under way, the world picks one of them. *)
Fixpoint completion {A : Type} (finish : nat -> nat) (step fuel : nat)
    (running : list A) : list A :=
  match fuel with
  | O => []
  | S fuel' =>
      let k := (finish step mod List.length running)%nat in
      match nth_error running k with
      | None => []
      | Some x => x :: completion finish (S step) fuel' (remove_nth k running)
      end
  end.

(** [wg.Wait()]: every goroutine that was started has finished, in some
    order. *)
Definition wg_Wait {A : Type} (w : World) (started : list A) : list A :=
  completion (finish w) 0 (List.length started) started.

Module MultiServerDNS.

Record t : Type := mk
  { servers : list string;
    zone : string;
    tsigKey : string;
    tsigAlg : string;
    tsigSec : string;
    minSuccess : Z }.

(** Go's [/] on [int] truncates, which is [Z.quot]. *)
Definition NewMultiServerDNS (servers : list string)
    (zone tsigKey tsigAlg tsigSec : string) : t :=
  let minSuccess := Z.quot (Z.of_nat (List.length servers)) 2 + 1 in
  let minSuccess := if minSuccess <? 1 then 1 else minSuccess in
  mk servers zone tsigKey tsigAlg tsigSec minSuccess.

(** What the goroutines share: [successCount] (under the mutex) and the
    errors sent on [errChan] so far. *)
Definition Shared : Type := (Z * list error)%type.

(** The goroutines run to their end one after the other, in the order in
    which they finish.  A finer interleaving of two goroutines changes
    the order of their events in the trace and nothing else: a goroutine
    touches the shared state once, when its client call has returned. *)
Fixpoint run (body : nat * string -> Shared -> IO Shared)
    (finished : list (nat * string)) (st : Shared) : IO Shared :=
  match finished with
  | [] => ret st
  | g :: rest => st' <- body g st ;; run body rest st'
  end.

Definition client_of (m : t) (srv : string) : RFC2136Client.t :=
  RFC2136Client.NewRFC2136Client srv (zone m) (tsigKey m) (tsigAlg m) (tsigSec m).

(** The body of the goroutine of [AddTXTRecord]. *)
Definition add_body (lib : Lib) (w : World) (m : t) (fqdn value : string)
    (ttl : Z) (g : nat * string) (st : Shared) : IO Shared :=
  let srv := snd g in
  let client := client_of m srv in
  r <- RFC2136Client.AddTXTRecord lib client (peer w (fst g)) fqdn value ttl ;;
  match r with
  | Some err =>
      Error_ "Failed to add TXT record on server"
             [zap.String "server" srv; zap.String "fqdn" fqdn; zap.Error err] ;;
      ret (fst st,
           snd st ++ [wrapError ("server " +++ srv +++ ": " +++ Error err) err])
  | None =>
      Info "Successfully added TXT record on server"
           [zap.String "server" srv; zap.String "fqdn" fqdn] ;;
      ret (fst st + 1, snd st)
  end.

Definition AddTXTRecord (lib : Lib) (w : World) (m : t)
    (fqdn value : string) (ttl : Z) : IO (option error) :=
  Info "Adding TXT record to multiple servers"
       [zap.String "fqdn" fqdn; zap.String "value" value;
        zap.Strings "servers" (servers m)] ;;
  st <- run (add_body lib w m fqdn value ttl)
            (wg_Wait w (indexed (servers m))) (0, []) ;;
  let successCount := fst st in
  let errors := snd st in
  if successCount <? minSuccess m then
    Error_ "Insufficient successful updates"
           [zap.Int "success_count" successCount;
            zap.Int "min_required" (minSuccess m);
            zap.Int "total_servers" (Z.of_nat (List.length (servers m)));
            zap.Int "errors" (Z.of_nat (List.length errors))] ;;
    ret (Some (errorString
                 ("only " +++ fmt.d successCount +++ "/"
                  +++ fmt.d (Z.of_nat (List.length (servers m)))
                  +++ " servers updated successfully (minimum "
                  +++ fmt.d (minSuccess m) +++ " required): "
                  +++ fmt.v_errors errors)))
  else
    (if 0 <? Z.of_nat (List.length errors) then
       Warn "Some servers failed, but minimum success threshold met"
            [zap.Int "success_count" successCount;
             zap.Int "error_count" (Z.of_nat (List.length errors))]
     else ret tt) ;;
    Info "TXT record added successfully to multiple servers"
         [zap.String "fqdn" fqdn; zap.Int "success_count" successCount;
          zap.Int "total_servers" (Z.of_nat (List.length (servers m)))] ;;
    ret None.

(** The body of the goroutine of [DeleteTXTRecord]. *)
Definition delete_body (lib : Lib) (w : World) (m : t) (fqdn : string)
    (g : nat * string) (st : Shared) : IO Shared :=
  let srv := snd g in
  let client := client_of m srv in
  r <- RFC2136Client.DeleteTXTRecord lib client (peer w (fst g)) fqdn ;;
  match r with
  | Some err =>
      Error_ "Failed to delete TXT record on server"
             [zap.String "server" srv; zap.String "fqdn" fqdn; zap.Error err] ;;
      ret (fst st,
           snd st ++ [wrapError ("server " +++ srv +++ ": " +++ Error err) err])
  | None =>
      Info "Successfully deleted TXT record on server"
           [zap.String "server" srv; zap.String "fqdn" fqdn] ;;
      ret (fst st + 1, snd st)
  end.

Definition DeleteTXTRecord (lib : Lib) (w : World) (m : t)
    (fqdn : string) : IO (option error) :=
  Info "Deleting TXT record from multiple servers"
       [zap.String "fqdn" fqdn; zap.Strings "servers" (servers m)] ;;
  st <- run (delete_body lib w m fqdn)
            (wg_Wait w (indexed (servers m))) (0, []) ;;
  let successCount := fst st in
  let errors := snd st in
  if successCount =? 0 then
    Error_ "Failed to delete TXT record on all servers"
           [zap.Int "total_servers" (Z.of_nat (List.length (servers m)));
            zap.Int "errors" (Z.of_nat (List.length errors))] ;;
    ret (Some (errorString ("failed to delete on all servers: "
                            +++ fmt.v_errors errors)))
  else
    (if 0 <? Z.of_nat (List.length errors) then
       Warn "Some servers failed during deletion"
            [zap.Int "success_count" successCount;
             zap.Int "error_count" (Z.of_nat (List.length errors))]
     else ret tt) ;;
    Info "TXT record deleted successfully from multiple servers"
         [zap.String "fqdn" fqdn; zap.Int "success_count" successCount;
          zap.Int "total_servers" (Z.of_nat (List.length (servers m)))] ;;
    ret None.

End MultiServerDNS.

(** ** internal/webhook: the challenge handler *)

Module acmev1.
(** The configuration of the solver as the challenge carries it. *)
Record ACMESolverConfig : Type := mkACMESolverConfig { Raw : list byte }.
End acmev1.

Module v1alpha1.
(** [v1alpha1.ChallengeRequest], the fields the solver reads; [Config]
    may be nil. *)
Record ChallengeRequest : Type := mkChallengeRequest
  { ResolvedFQDN : string;
    Key : string;
    ResourceNamespace : string;
    Config : option acmev1.ACMESolverConfig }.
End v1alpha1.

Module DNS01Solver.

(** [client] is nil until [Initialize] has run. *)
Record t : Type := mk { client : option kubernetes.Interface }.

Definition NewDNS01Solver : t := mk None.

Definition Name (s : t) : string := "multi-dns".

Definition parseConfig (lib : Lib) (cfgJSON : option acmev1.ACMESolverConfig)
    : result Config :=
  let config := mkConfig [] "" "" "hmac-sha256" "" "secret" 60 in
  match cfgJSON with
  | None => Err (errorString "config is empty")
  | Some cfg =>
      if Z.of_nat (List.length (acmev1.Raw cfg)) =? 0 then
        Err (errorString "config is empty")
      else
        match json_Unmarshal lib (acmev1.Raw cfg) config with
        | Err err =>
            Err (wrapError ("failed to unmarshal config: " +++ Error err) err)
        | Ok config =>
            if Z.of_nat (List.length (Servers config)) =? 0 then
              Err (errorString "servers list is required")
            else if String.eqb (Zone config) "" then
              Err (errorString "zone is required")
            else if String.eqb (TSIGKeyName config) "" then
              Err (errorString "tsigKeyName is required")
            else if String.eqb (TSIGSecretName config) "" then
              Err (errorString "tsigSecretName is required")
            else Ok config
        end
  end.

Definition getTSIGSecret (s : t) (namespace secretName key : string)
    : IO (result string) :=
  match client s with
  | None => ret (Err (errorString "kubernetes client not initialized"))
  | Some cl =>
      r <- ([SecretGet namespace secretName],
            kubernetes.Secrets_Get cl namespace secretName) ;;
      match r with
      | Err err =>
          ret (Err (wrapError ("failed to get secret " +++ namespace +++ "/"
                               +++ secretName +++ ": " +++ Error err) err))
      | Ok secret =>
          match lookup key (kubernetes.Data secret) with
          | None =>
              ret (Err (errorString ("key " +++ key +++ " not found in secret "
                                     +++ namespace +++ "/" +++ secretName)))
          | Some secretData => ret (Ok (string_of_list_byte secretData))
          end
      end
  end.

(** [ctx] is [context.Background()]: it carries no deadline and is never
    cancelled, so it does not appear. *)
Definition Present (lib : Lib) (w : World) (s : t)
    (ch : v1alpha1.ChallengeRequest) : IO (option error) :=
  Info "Presenting DNS01 challenge"
       [zap.String "fqdn" (v1alpha1.ResolvedFQDN ch);
        zap.String "key" (v1alpha1.Key ch);
        zap.String "namespace" (v1alpha1.ResourceNamespace ch)] ;;
  match parseConfig lib (v1alpha1.Config ch) with
  | Err err => ret (Some (wrapError ("failed to parse config: " +++ Error err) err))
  | Ok config =>
      r <- getTSIGSecret s (v1alpha1.ResourceNamespace ch)
                         (TSIGSecretName config) (TSIGSecretKey config) ;;
      match r with
      | Err err =>
          ret (Some (wrapError ("failed to get TSIG secret: " +++ Error err) err))
      | Ok tsigSecret =>
          let dnsManager :=
            MultiServerDNS.NewMultiServerDNS
              (Servers config) (Zone config) (TSIGKeyName config)
              (TSIGAlgorithm config) tsigSecret in
          r <- MultiServerDNS.AddTXTRecord lib w dnsManager
                 (v1alpha1.ResolvedFQDN ch) (v1alpha1.Key ch) (TTL config) ;;
          match r with
          | Some err =>
              ret (Some (wrapError ("failed to add TXT record: " +++ Error err) err))
          | None =>
              Info "DNS01 challenge presented successfully"
                   [zap.String "fqdn" (v1alpha1.ResolvedFQDN ch);
                    zap.Int "servers" (Z.of_nat (List.length (Servers config)))] ;;
              ret None
          end
      end
  end.

Definition CleanUp (lib : Lib) (w : World) (s : t)
    (ch : v1alpha1.ChallengeRequest) : IO (option error) :=
  Info "Cleaning up DNS01 challenge"
       [zap.String "fqdn" (v1alpha1.ResolvedFQDN ch);
        zap.String "key" (v1alpha1.Key ch);
        zap.String "namespace" (v1alpha1.ResourceNamespace ch)] ;;
  match parseConfig lib (v1alpha1.Config ch) with
  | Err err => ret (Some (wrapError ("failed to parse config: " +++ Error err) err))
  | Ok config =>
      r <- getTSIGSecret s (v1alpha1.ResourceNamespace ch)
                         (TSIGSecretName config) (TSIGSecretKey config) ;;
      match r with
      | Err err =>
          ret (Some (wrapError ("failed to get TSIG secret: " +++ Error err) err))
      | Ok tsigSecret =>
          let dnsManager :=
            MultiServerDNS.NewMultiServerDNS
              (Servers config) (Zone config) (TSIGKeyName config)
              (TSIGAlgorithm config) tsigSecret in
          r <- MultiServerDNS.DeleteTXTRecord lib w dnsManager
                 (v1alpha1.ResolvedFQDN ch) ;;
          match r with
          | Some err =>
              ret (Some (wrapError ("failed to delete TXT record: " +++ Error err) err))
          | None =>
              Info "DNS01 challenge cleaned up successfully"
                   [zap.String "fqdn" (v1alpha1.ResolvedFQDN ch);
                    zap.Int "servers" (Z.of_nat (List.length (Servers config)))] ;;
              ret None
          end
      end
  end.

(** [Initialize]; [NewForConfig] is what [kubernetes.NewForConfig] returns
    for the configuration it is given.  The solver is passed and returned:
    the method stores into [s.client]. *)
Definition Initialize (NewForConfig : result kubernetes.Interface) (s : t)
    : t * option error :=
  match NewForConfig with
  | Err err =>
      (s, Some (wrapError ("failed to create kubernetes client: " +++ Error err) err))
  | Ok cl => (mk (Some cl), None)
  end.

(** The function [StartWebhookServer] registers with the webhook server:
    it initializes [solver] and hands it over, or returns the error. *)
Definition StartWebhookServer_hook (NewForConfig : result kubernetes.Interface)
    (solver : t) : result t :=
  match snd (Initialize NewForConfig solver) with
  | Some err => Err err
  | None => Ok (fst (Initialize NewForConfig solver))
  end.

End DNS01Solver.

(** ** Reading a trace *)

Definition exchanges (tr : list Event) : list (dns.Client * dns.Msg * string) :=
  flat_map (fun ev => match ev with Exchange c m a => [(c, m, a)] | _ => [] end) tr.

Definition logs (tr : list Event) : list zap.Entry :=
  flat_map (fun ev => match ev with Log e => [e] | _ => [] end) tr.

Definition secret_reads (tr : list Event) : list (string * string) :=
  flat_map (fun ev => match ev with SecretGet ns n => [(ns, n)] | _ => [] end) tr.

Definition is_nil (r : option error) : bool :=
  match r with
  | None => true
  | Some _ => false
  end.

(** ** What the goroutines of one fan-out return *)

(** The error a goroutine sends on [errChan]: [fmt.Errorf("server %s: %w")]. *)
Definition server_error (srv : string) (err : error) : error :=
  wrapError ("server " +++ srv +++ ": " +++ Error err) err.

(** What the single-server add of goroutine [g] returns. *)
Definition add_result (lib : Lib) (w : World) (m : MultiServerDNS.t)
    (fqdn value : string) (ttl : Z) (g : nat * string) : option error :=
  returned (RFC2136Client.AddTXTRecord lib (MultiServerDNS.client_of m (snd g))
                                    (peer w (fst g)) fqdn value ttl).

(** What the single-server delete of goroutine [g] returns. *)
Definition delete_result (lib : Lib) (w : World) (m : MultiServerDNS.t)
    (fqdn : string) (g : nat * string) : option error :=
  returned (RFC2136Client.DeleteTXTRecord lib (MultiServerDNS.client_of m (snd g))
                                       (peer w (fst g)) fqdn).

(** The number of goroutines of [l] whose call succeeds. *)
Definition successes (res : nat * string -> option error)
    (l : list (nat * string)) : Z :=
  Z.of_nat (List.length (filter (fun g => is_nil (res g)) l)).

(** The failing goroutines of [l], each with its server and its cause. *)
Definition failures (res : nat * string -> option error)
    (l : list (nat * string)) : list error :=
  flat_map (fun g => match res g with
                     | Some err => [server_error (snd g) err]
                     | None => []
                     end) l.

(** The call of the library that goroutine [g] of [AddTXTRecord] makes. *)
Definition add_call (w : World) (m : MultiServerDNS.t) (fqdn value : string)
    (ttl : Z) (g : nat * string) : dns.Client * dns.Msg * string :=
  let c := MultiServerDNS.client_of m (snd g) in
  (RFC2136Client.new_Client c,
   RFC2136Client.add_msg c (peer w (fst g)) fqdn value ttl,
   snd g +++ ":53").

(** The call of the library that goroutine [g] of [DeleteTXTRecord] makes. *)
Definition delete_call (w : World) (m : MultiServerDNS.t) (fqdn : string)
    (g : nat * string) : dns.Client * dns.Msg * string :=
  let c := MultiServerDNS.client_of m (snd g) in
  (RFC2136Client.new_Client c,
   RFC2136Client.delete_msg c (peer w (fst g)) fqdn,
   snd g +++ ":53").

(** The errors [AddTXTRecord] collects from [errChan], in the order in which
    they were sent. *)
Definition add_errors (lib : Lib) (w : World) (m : MultiServerDNS.t)
    (fqdn value : string) (ttl : Z) : list error :=
  failures (add_result lib w m fqdn value ttl)
           (wg_Wait w (indexed (MultiServerDNS.servers m))).

(** The errors [DeleteTXTRecord] collects from [errChan]. *)
Definition delete_errors (lib : Lib) (w : World) (m : MultiServerDNS.t)
    (fqdn : string) : list error :=
  failures (delete_result lib w m fqdn)
           (wg_Wait w (indexed (MultiServerDNS.servers m))).

(** ** Two runs that differ in the TSIG secret *)

(** What the code can see of an answer of [ExchangeContext]: its error, or
    else the RCODE of the reply. *)
Definition same_answer (r1 r2 : result dns.Msg) : Prop :=
  match r1, r2 with
  | Ok reply1, Ok reply2 => dns.Rcode reply1 = dns.Rcode reply2
  | Err e1, Err e2 => e1 = e2
  | _, _ => False
  end.

(** Two Go maps with the same keys, whose values correspond. *)
Definition same_keys {A : Type} (R : A -> A -> Prop) (m1 m2 : list (string * A))
    : Prop :=
  Forall2 (fun x y => fst x = fst y /\ R (snd x) (snd y)) m1 m2.

Section TwoRuns.

(** [R sec1 sec2]: the first run uses the secret [sec1] where the second
    uses [sec2]. *)
Variable R : string -> string -> Prop.

(** Two clients of the library that differ at most in the secrets of
    their keys. *)
Definition same_but_secret (c1 c2 : dns.Client) : Prop :=
  dns.Net c1 = dns.Net c2
  /\ dns.Timeout c1 = dns.Timeout c2
  /\ same_keys R (dns.TsigSecret c1) (dns.TsigSecret c2).

(** The calls of the library come back alike in both runs: same message
    id, same clock, and [ExchangeContext] returns the same error, or a
    reply with the same RCODE, for the same message from clients that hold
    the secret of their run.  This is a condition on the library as well as
    on the servers: the library uses the secret inside that call, and an
    error of its own that depends on the secret (a secret that is not
    base64, see [Sample.decoding]) breaks it. *)
Definition peers_agree (p1 p2 : Peer) : Prop :=
  dns_Id p1 = dns_Id p2
  /\ time_Now_Unix p1 = time_Now_Unix p2
  /\ forall c1 c2 m a,
       same_but_secret c1 c2 ->
       same_answer (exchange p1 c1 m a) (exchange p2 c2 m a).

Definition worlds_agree (w1 w2 : World) : Prop :=
  (forall step, finish w1 step = finish w2 step)
  /\ (forall i, peers_agree (peer w1 i) (peer w2 i)).

(** The two secret stores hold the same secrets with the same keys; the
    bytes under a key are the secret of the run. *)
Definition stores_agree (k1 k2 : kubernetes.Interface) : Prop :=
  forall namespace name,
    match kubernetes.Secrets_Get k1 namespace name,
          kubernetes.Secrets_Get k2 namespace name with
    | Ok secret1, Ok secret2 =>
        same_keys (fun b1 b2 => R (string_of_list_byte b1) (string_of_list_byte b2))
                  (kubernetes.Data secret1) (kubernetes.Data secret2)
    | Err e1, Err e2 => e1 = e2
    | _, _ => False
    end.

Definition solvers_agree (s1 s2 : DNS01Solver.t) : Prop :=
  match DNS01Solver.client s1, DNS01Solver.client s2 with
  | Some k1, Some k2 => stores_agree k1 k2
  | None, None => True
  | _, _ => False
  end.

End TwoRuns.

(** Two runs log the same entries and return the same value. *)
Definition same_output {A : Type} (r1 r2 : IO A) : Prop :=
  logs (trace r1) = logs (trace r2) /\ returned r1 = returned r2.

(** ** Zone containment, in the words of the data model *)

(** [strings.HasSuffix]: [s] is [suffix], or what follows its first
    character ends with [suffix]. *)
Fixpoint HasSuffix (s suffix : string) : bool :=
  String.eqb s suffix
  || match s with
     | EmptyString => false
     | String.String _ rest => HasSuffix rest suffix
     end.

(** After normalization, [fqdn] has [zone] as a suffix. *)
Definition in_zone (fqdn zone : string) : bool :=
  HasSuffix (dns.Fqdn fqdn) (dns.Fqdn zone).

(** The requests of a message lie in its zone: every record of the Update
    section has the name of the Zone section as a suffix. *)
Definition contained (m : dns.Msg) : bool :=
  forallb (fun q => forallb (fun rr => HasSuffix (dns.Name (dns.Hdr rr)) (dns.qName q))
                            (dns.Ns m))
          (dns.Questions m).

(** The envelope of an update: the header, the Zone section and the TSIG
    record, for the zone, key name and algorithm of [config]. *)
Definition signed_update (config : Config) (msg : dns.Msg) : Prop :=
  dns.Opcode msg = dns.OpcodeUpdate
  /\ dns.Response msg = false
  /\ dns.Questions msg
     = [dns.mkQuestion (dns.Fqdn (Zone config)) dns.TypeSOA dns.ClassINET]
  /\ dns.Answer msg = []
  /\ List.length (dns.Ns msg) = 1%nat
  /\ exists timeSigned,
      0 <= timeSigned < 2 ^ 64
      /\ dns.Extra msg
         = [dns.mkRR (dns.mkHeader (TSIGKeyName config) dns.TypeTSIG dns.ClassANY 0 0)
                     (dns.TSIG (TSIGAlgorithm config) timeSigned 300 (dns.Id msg))].

(** ** What a document leaves out *)

(** The document gives no server: the list is absent or empty. *)
Definition no_servers (field : option (list string)) : bool :=
  match field with
  | None | Some [] => true
  | Some (_ :: _) => false
  end.

(** The document gives no text for a field: the field is absent or is the
    empty string. *)
Definition blank (field : option string) : bool :=
  match field with
  | None => true
  | Some s => String.eqb s ""
  end.

(** ** Sample data *)

Module Sample.

(** The bytes of a JSON text, written with ['] for the double quote. *)
Definition js (s : string) : list byte :=
  map (fun b => if Byte.eqb b "'"%byte then x22 else b) (list_byte_of_string s).

Definition rcodes : list (Z * string) :=
  [(0, "NOERROR"); (1, "FORMERR"); (2, "SERVFAIL"); (3, "NXDOMAIN");
   (4, "NOTIMP"); (5, "REFUSED"); (6, "YXDOMAIN"); (7, "YXRRSET");
   (8, "NXRRSET"); (9, "NOTAUTH"); (10, "NOTZONE")].

Fixpoint assoc (k : Z) (l : list (Z * string)) : string :=
  match l with
  | [] => ""
  | (k', s) :: rest => if k =? k' then s else assoc k rest
  end.

Definition three_servers : list byte :=
  js "{'servers':['10.0.0.1','10.0.0.2','10.0.0.3'],'zone':'example.com','tsigKeyName':'acme-key','tsigSecretName':'tsig'}".

Definition empty_zone : list byte :=
  js "{'servers':['10.0.0.1'],'zone':'','tsigKeyName':'k','tsigSecretName':'s'}".

Definition no_servers : list byte :=
  js "{'zone':'example.com','tsigKeyName':'k','tsigSecretName':'s'}".

Definition negative_ttl : list byte :=
  js "{'servers':['10.0.0.1'],'zone':'example.com','tsigKeyName':'acme-key','tsigSecretName':'tsig','ttl':-1}".

(** The three servers again, with the key name and the algorithm in fully
    qualified form. *)
Definition qualified : list byte :=
  js "{'servers':['10.0.0.1','10.0.0.2','10.0.0.3'],'zone':'example.com','tsigKeyName':'acme-key.','tsigAlgorithm':'hmac-sha256.','tsigSecretName':'tsig'}".

(** What encoding/json reads in these documents. *)
Definition documents : list (list byte * json.Doc) :=
  [(three_servers,
    json.mkDoc (Some ["10.0.0.1"; "10.0.0.2"; "10.0.0.3"]) (Some "example.com")
               (Some "acme-key") None (Some "tsig") None None);
   (empty_zone,
    json.mkDoc (Some ["10.0.0.1"]) (Some "") (Some "k") None (Some "s") None None);
   (no_servers,
    json.mkDoc None (Some "example.com") (Some "k") None (Some "s") None None);
   (negative_ttl,
    json.mkDoc (Some ["10.0.0.1"]) (Some "example.com") (Some "acme-key") None
               (Some "tsig") None (Some (-1)));
   (qualified,
    json.mkDoc (Some ["10.0.0.1"; "10.0.0.2"; "10.0.0.3"]) (Some "example.com")
               (Some "acme-key.") (Some "hmac-sha256.") (Some "tsig") None None)].

Fixpoint decode_in (table : list (list byte * json.Doc)) (data : list byte)
    : result json.Doc :=
  match table with
  | [] => Err (errorString "invalid character")
  | (raw, doc) :: rest =>
      if String.eqb (string_of_list_byte raw) (string_of_list_byte data)
      then Ok doc else decode_in rest data
  end.

Definition lib : Lib := mkLib (fun rc => assoc rc rcodes) (decode_in documents).

Definition reply (rcode : Z) (tc : bool) : dns.Msg :=
  dns.mkMsg 7 true dns.OpcodeUpdate tc rcode false [] [] [] [].

(** A server that answers NOERROR, one that answers REFUSED, one that
    is not reached, and one whose NOERROR answer has the TC bit set. *)
Definition noerror : Peer := mkPeer 7 1700000000 (fun _ _ _ => Ok (reply 0 false)).
Definition refused : Peer := mkPeer 8 1700000000 (fun _ _ _ => Ok (reply 5 false)).
Definition unreachable : Peer :=
  mkPeer 9 1700000000 (fun _ _ _ => Err (errorString "i/o timeout")).
Definition truncated : Peer := mkPeer 10 1700000000 (fun _ _ _ => Ok (reply 0 true)).

(** A server that holds [secret] for the key acme-key.: NOERROR for a
    client that signs with it, NOTAUTH for another. *)
Definition keyed (secret : string) : Peer :=
  mkPeer 11 1700000000
         (fun c _ _ =>
            match lookup "acme-key." (dns.TsigSecret c) with
            | Some sec => if String.eqb sec secret then Ok (reply 0 false)
                          else Ok (reply 9 false)
            | None => Err (errorString "dns: no secrets defined")
            end).

(** Goroutines finish in the order they were started; the first two
    servers answer NOERROR, the others are not reached. *)
Definition two_up : World :=
  mkWorld (fun i => if (i <? 2)%nat then noerror else unreachable) (fun _ => O).

(** The last goroutine started finishes first; only the first server
    answers NOERROR, the others answer REFUSED. *)
Definition one_up : World :=
  mkWorld (fun i => if (i <? 1)%nat then noerror else refused)
          (fun step => 2%nat).

Definition all_down : World := mkWorld (fun _ => unreachable) (fun _ => O).

(** Every server holds [secret]. *)
Definition all_keyed (secret : string) : World :=
  mkWorld (fun _ => keyed secret) (fun _ => O).

(** The secret of one run and the secret of the other. *)
Definition secrets (sec1 sec2 : string) : Prop :=
  sec1 = "c2VjcmV0" /\ sec2 = "b3RoZXI=".

Definition fqdn : string := "_acme-challenge.app.example.com.".

(** A client whose key name and algorithm are fully qualified, as the
    library wants them before it writes a signed message. *)
Definition client : RFC2136Client.t :=
  RFC2136Client.NewRFC2136Client
    "10.0.0.1" "example.com" "acme-key." "hmac-sha256." "c2VjcmV0".

Definition secret_store (secret : string) : kubernetes.Interface :=
  kubernetes.mkInterface
    (fun ns name =>
       if String.eqb name "tsig"
       then Ok (kubernetes.mkSecret [("secret", list_byte_of_string secret)])
       else Err (errorString ("secrets " +++ name +++ " not found"))).

Definition solver (secret : string) : DNS01Solver.t :=
  DNS01Solver.mk (Some (secret_store secret)).

Definition challenge (fqdn key : string) (config : list byte)
    : v1alpha1.ChallengeRequest :=
  v1alpha1.mkChallengeRequest fqdn key "istio-system"
                              (Some (acmev1.mkACMESolverConfig config)).

(** Coordinators for the servers a, b, c and a, b, c, d. *)
Definition abc : MultiServerDNS.t :=
MultiServerDNS.NewMultiServerDNS ["a"; "b"; "c"] "example.com" "acme-key"
                                 "hmac-sha256" "c2VjcmV0".

Definition abcd : MultiServerDNS.t :=
MultiServerDNS.NewMultiServerDNS ["a"; "b"; "c"; "d"] "example.com" "acme-key"
                                 "hmac-sha256" "c2VjcmV0".

(** A solver on which [Initialize] has not run. *)
Definition uninitialized : DNS01Solver.t := DNS01Solver.NewDNS01Solver.

Definition outside_fqdn : string := "_acme-challenge.app.other.org.".

(** The peers of [two_up], the goroutine started last finishing first. *)
Definition two_up_reversed : World := mkWorld (peer two_up) (fun _ => 2%nat).

(** The first server is not reached, the others answer NOERROR. *)
Definition last_two_up : World :=
  mkWorld (fun i => if (i <? 1)%nat then unreachable else noerror) (fun _ => O).

Definition all_up : World := mkWorld (fun _ => noerror) (fun _ => O).

(** What [parseConfig] returns for [qualified]. *)
Definition qualified_config : Config :=
  mkConfig ["10.0.0.1"; "10.0.0.2"; "10.0.0.3"] "example.com" "acme-key."
           "hmac-sha256." "tsig" "secret" 60.

(** The bytes of the base64 alphabet and its padding. *)
Definition base64_byte (c : ascii) : bool :=
  let n := nat_of_ascii c in
  ((65 <=? n) && (n <=? 90) || (97 <=? n) && (n <=? 122)
   || (48 <=? n) && (n <=? 57) || (n =? 43) || (n =? 47) || (n =? 61))%nat.

(** The position of the first byte of [s] that is outside it. *)
Fixpoint first_illegal (s : string) (pos : Z) : option Z :=
  match s with
  | EmptyString => None
  | String.String c rest =>
      if base64_byte c then first_illegal rest (pos + 1) else Some pos
  end.

(** A library that decodes the secret before it writes anything: with a
    secret that is not base64, [ExchangeContext] comes back with the error
    of the decoder, which tells where the secret goes wrong; with a secret
    that decodes, the server answers NOERROR. *)
Definition decoding : Peer :=
  mkPeer 12 1700000000
         (fun c _ _ =>
            match dns.TsigSecret c with
            | (_, sec) :: _ =>
                match first_illegal sec 0 with
                | Some pos =>
                    Err (errorString ("illegal base64 data at input byte "
                                      +++ fmt.d pos))
                | None => Ok (reply 0 false)
                end
            | [] => Ok (reply 0 false)
            end).

Definition all_decoding : World := mkWorld (fun _ => decoding) (fun _ => O).

(** Two secrets that are not base64, one in each run. *)
Definition bad_secrets (sec1 sec2 : string) : Prop :=
  sec1 = "c2Vj!mV0" /\ sec2 = "c2VjcmV!".

End Sample.

(** * Properties *)

(** ** The trace monad and its readers *)

Section Traces.

Context {A B : Type}.

Lemma trace_bind (m : IO A) (k : A -> IO B) :
  trace (bind m k) = trace m ++ trace (k (returned m)).
Proof. reflexivity. Qed.

Lemma returned_bind (m : IO A) (k : A -> IO B) :
  returned (bind m k) = returned (k (returned m)).
Proof. reflexivity. Qed.

End Traces.

Lemma exchanges_app (t1 t2 : list Event) :
  exchanges (t1 ++ t2) = exchanges t1 ++ exchanges t2.
Proof. apply flat_map_app. Qed.

Lemma logs_app (t1 t2 : list Event) : logs (t1 ++ t2) = logs t1 ++ logs t2.
Proof. apply flat_map_app. Qed.

Lemma secret_reads_app (t1 t2 : list Event) :
  secret_reads (t1 ++ t2) = secret_reads t1 ++ secret_reads t2.
Proof. apply flat_map_app. Qed.

(** ** The goroutines all finish, each once *)

Lemma remove_nth_Permutation {A : Type} (l : list A) :
  forall k x, nth_error l k = Some x -> Permutation (x :: remove_nth k l) l.
Proof.
  induction l as [|a l IH]; intros [|k] x H; simpl in *; try discriminate.
  - injection H as ->. apply Permutation_refl.
  - apply perm_trans with (a :: x :: remove_nth k l).
    + apply perm_swap.
    + apply perm_skip, IH, H.
Qed.

Lemma remove_nth_length {A : Type} (l : list A) :
  forall k x, nth_error l k = Some x ->
              List.length l = S (List.length (remove_nth k l)).
Proof.
  induction l as [|a l IH]; intros [|k] x H; simpl in *; try discriminate.
  - reflexivity.
  - f_equal. eapply IH, H.
Qed.

Lemma completion_Permutation {A : Type} (finish : nat -> nat) :
  forall fuel step (running : list A),
    List.length running = fuel ->
    Permutation (completion finish step fuel running) running.
Proof.
  induction fuel as [|fuel IH]; intros step running Hlen.
  - destruct running; [apply perm_nil | discriminate].
  - simpl.
    destruct (nth_error running (finish step mod List.length running)%nat)
      as [x|] eqn:Hnth.
    + apply perm_trans
        with (x :: remove_nth (finish step mod List.length running)%nat running).
      * apply perm_skip, IH.
        apply eq_add_S. rewrite <- (remove_nth_length _ _ _ Hnth). exact Hlen.
      * apply remove_nth_Permutation, Hnth.
    + exfalso. apply nth_error_None in Hnth.
      assert (finish step mod List.length running
              < List.length running)%nat by (apply Nat.mod_upper_bound; lia).
      lia.
Qed.

Lemma wg_Wait_Permutation {A : Type} (w : World) (started : list A) :
  Permutation (wg_Wait w started) started.
Proof. apply completion_Permutation. reflexivity. Qed.

Lemma indexed_servers {A : Type} (l : list A) : map snd (indexed l) = l.
Proof.
  unfold indexed. generalize 0%nat.
  induction l as [|a l IH]; intro n; simpl; [reflexivity | f_equal; apply IH].
Qed.

Lemma indexed_length {A : Type} (l : list A) :
  List.length (indexed l) = List.length l.
Proof. rewrite <- (indexed_servers l) at 2. symmetry. apply length_map. Qed.

(** ** Counting is blind to the order of completion *)

Lemma successes_Permutation (res : nat * string -> option error) l l' :
  Permutation l l' -> successes res l = successes res l'.
Proof.
  unfold successes. intro H. f_equal.
  induction H as [| x l l' _ IH | x y l | l l' l'' _ IH1 _ IH2]; simpl.
  - reflexivity.
  - destruct (is_nil (res x)); simpl; congruence.
  - destruct (is_nil (res x)), (is_nil (res y)); reflexivity.
  - congruence.
Qed.

Lemma failures_Permutation (res : nat * string -> option error) l l' :
  Permutation l l' -> Permutation (failures res l) (failures res l').
Proof. apply Permutation_flat_map. Qed.

Lemma successes_cons res g l :
  successes res (g :: l) = (if is_nil (res g) then 1 else 0) + successes res l.
Proof.
  unfold successes. simpl. destruct (is_nil (res g)); simpl List.length; lia.
Qed.

Lemma successes_bounds res l : 0 <= successes res l <= Z.of_nat (List.length l).
Proof.
  unfold successes. pose proof (filter_length_le (fun g => is_nil (res g)) l). lia.
Qed.

Lemma failures_length res l :
  Z.of_nat (List.length (failures res l)) = Z.of_nat (List.length l) - successes res l.
Proof.
  induction l as [|g l IH].
  - reflexivity.
  - rewrite successes_cons.
    change (failures res (g :: l))
      with (match res g with
            | Some err => [server_error (snd g) err]
            | None => []
            end ++ failures res l).
    rewrite length_app, Nat2Z.inj_add, IH.
    cbn [List.length]. rewrite Nat2Z.inj_succ.
    destruct (res g); cbn [List.length is_nil]; lia.
Qed.

(** ** The loop of goroutines *)

Section Run.

Variable body : nat * string -> MultiServerDNS.Shared -> IO MultiServerDNS.Shared.
Variable res : nat * string -> option error.
Variable call : nat * string -> dns.Client * dns.Msg * string.

Hypothesis body_returned : forall g st,
  returned (body g st) =
  match res g with
  | Some err => (fst st, snd st ++ [server_error (snd g) err])
  | None => (fst st + 1, snd st)
  end.

Hypothesis body_exchanges : forall g st, exchanges (trace (body g st)) = [call g].

Lemma run_returned l : forall st,
  returned (MultiServerDNS.run body l st)
  = (fst st + successes res l, snd st ++ failures res l).
Proof.
  induction l as [|g l IH]; intro st; simpl MultiServerDNS.run.
  - unfold ret, returned, successes, failures. simpl.
    rewrite Z.add_0_r, app_nil_r. now destruct st.
  - rewrite returned_bind, IH, body_returned, successes_cons.
    unfold failures. simpl flat_map. fold (failures res l).
    destruct (res g) as [err|]; cbn [fst snd is_nil app].
    + rewrite <- app_assoc. reflexivity.
    + f_equal. lia.
Qed.

Lemma run_exchanges l : forall st,
  exchanges (trace (MultiServerDNS.run body l st)) = map call l.
Proof.
  induction l as [|g l IH]; intro st; simpl MultiServerDNS.run.
  - reflexivity.
  - rewrite trace_bind, exchanges_app, body_exchanges, IH. reflexivity.
Qed.

End Run.

(** ** The single-server client *)

Lemma AddTXTRecord_exchanges lib c p fqdn value ttl :
  exchanges (trace (RFC2136Client.AddTXTRecord lib c p fqdn value ttl))
  = [(RFC2136Client.new_Client c, RFC2136Client.add_msg c p fqdn value ttl,
      RFC2136Client.server c +++ ":53")].
Proof.
  unfold RFC2136Client.AddTXTRecord, ExchangeContext, bind, trace.
  cbn [fst snd].
  destruct (exchange p _ _ _) as [reply|err];
    [destruct (negb (dns.Rcode reply =? dns.RcodeSuccess))|]; reflexivity.
Qed.

Lemma AddTXTRecord_returned lib c p fqdn value ttl :
  returned (RFC2136Client.AddTXTRecord lib c p fqdn value ttl)
  = match exchange p (RFC2136Client.new_Client c)
                   (RFC2136Client.add_msg c p fqdn value ttl)
                   (RFC2136Client.server c +++ ":53") with
    | Err err =>
        Some (wrapError ("failed to send DNS update to " +++ RFC2136Client.server c
                         +++ ": " +++ Error err) err)
    | Ok reply =>
        if dns.Rcode reply =? 0 then None
        else Some (errorString ("DNS update failed: "
                                +++ RcodeToString lib (dns.Rcode reply)
                                +++ " (rcode: " +++ fmt.d (dns.Rcode reply) +++ ")"))
    end.
Proof.
  unfold RFC2136Client.AddTXTRecord, ExchangeContext, bind, returned.
  cbn [fst snd].
  destruct (exchange p _ _ _) as [reply|err]; [|reflexivity].
  unfold dns.RcodeSuccess. destruct (dns.Rcode reply =? 0); reflexivity.
Qed.

Lemma DeleteTXTRecord_exchanges lib c p fqdn :
  exchanges (trace (RFC2136Client.DeleteTXTRecord lib c p fqdn))
  = [(RFC2136Client.new_Client c, RFC2136Client.delete_msg c p fqdn,
      RFC2136Client.server c +++ ":53")].
Proof.
  unfold RFC2136Client.DeleteTXTRecord, ExchangeContext, bind, trace.
  cbn [fst snd].
  destruct (exchange p _ _ _) as [reply|err];
    [destruct (negb (dns.Rcode reply =? dns.RcodeSuccess))|]; reflexivity.
Qed.

Lemma DeleteTXTRecord_returned lib c p fqdn :
  returned (RFC2136Client.DeleteTXTRecord lib c p fqdn)
  = match exchange p (RFC2136Client.new_Client c)
                   (RFC2136Client.delete_msg c p fqdn)
                   (RFC2136Client.server c +++ ":53") with
    | Err err =>
        Some (wrapError ("failed to send DNS delete to " +++ RFC2136Client.server c
                         +++ ": " +++ Error err) err)
    | Ok reply =>
        if dns.Rcode reply =? 0 then None
        else Some (errorString ("DNS delete failed: "
                                +++ RcodeToString lib (dns.Rcode reply)
                                +++ " (rcode: " +++ fmt.d (dns.Rcode reply) +++ ")"))
    end.
Proof.
  unfold RFC2136Client.DeleteTXTRecord, ExchangeContext, bind, returned.
  cbn [fst snd].
  destruct (exchange p _ _ _) as [reply|err]; [|reflexivity].
  unfold dns.RcodeSuccess. destruct (dns.Rcode reply =? 0); reflexivity.
Qed.

(** ** The coordinator *)

Lemma add_body_returned lib w m fqdn value ttl g st :
  returned (MultiServerDNS.add_body lib w m fqdn value ttl g st)
  = match add_result lib w m fqdn value ttl g with
    | Some err => (fst st, snd st ++ [server_error (snd g) err])
    | None => (fst st + 1, snd st)
    end.
Proof.
  unfold MultiServerDNS.add_body, add_result. rewrite returned_bind.
  destruct (returned (RFC2136Client.AddTXTRecord _ _ _ _ _ _)); reflexivity.
Qed.

Lemma add_body_exchanges lib w m fqdn value ttl g st :
  exchanges (trace (MultiServerDNS.add_body lib w m fqdn value ttl g st))
  = [add_call w m fqdn value ttl g].
Proof.
  unfold MultiServerDNS.add_body. rewrite trace_bind, exchanges_app.
  rewrite AddTXTRecord_exchanges.
  destruct (returned (RFC2136Client.AddTXTRecord _ _ _ _ _ _)); reflexivity.
Qed.

Lemma delete_body_returned lib w m fqdn g st :
  returned (MultiServerDNS.delete_body lib w m fqdn g st)
  = match delete_result lib w m fqdn g with
    | Some err => (fst st, snd st ++ [server_error (snd g) err])
    | None => (fst st + 1, snd st)
    end.
Proof.
  unfold MultiServerDNS.delete_body, delete_result. rewrite returned_bind.
  destruct (returned (RFC2136Client.DeleteTXTRecord _ _ _ _)); reflexivity.
Qed.

Lemma delete_body_exchanges lib w m fqdn g st :
  exchanges (trace (MultiServerDNS.delete_body lib w m fqdn g st))
  = [delete_call w m fqdn g].
Proof.
  unfold MultiServerDNS.delete_body. rewrite trace_bind, exchanges_app.
  rewrite DeleteTXTRecord_exchanges.
  destruct (returned (RFC2136Client.DeleteTXTRecord _ _ _ _)); reflexivity.
Qed.

Lemma minSuccess_majority servers zone tsigKey tsigAlg tsigSec :
  MultiServerDNS.minSuccess
    (MultiServerDNS.NewMultiServerDNS servers zone tsigKey tsigAlg tsigSec)
  = Z.of_nat (List.length servers) / 2 + 1.
Proof.
  unfold MultiServerDNS.NewMultiServerDNS. cbn [MultiServerDNS.minSuccess].
  rewrite Z.quot_div_nonneg by lia.
  pose proof (Z.div_pos (Z.of_nat (List.length servers)) 2 ltac:(lia) ltac:(lia)).
  destruct (Z.ltb_spec (Z.of_nat (List.length servers) / 2 + 1) 1); lia.
Qed.

Lemma coordinator_AddTXTRecord_returned lib w m fqdn value ttl :
  let n := successes (add_result lib w m fqdn value ttl)
                     (indexed (MultiServerDNS.servers m)) in
  returned (MultiServerDNS.AddTXTRecord lib w m fqdn value ttl)
  = if n <? MultiServerDNS.minSuccess m
    then Some (errorString
                 ("only " +++ fmt.d n +++ "/"
                  +++ fmt.d (Z.of_nat (List.length (MultiServerDNS.servers m)))
                  +++ " servers updated successfully (minimum "
                  +++ fmt.d (MultiServerDNS.minSuccess m) +++ " required): "
                  +++ fmt.v_errors (add_errors lib w m fqdn value ttl)))
    else None.
Proof.
  intro n. unfold MultiServerDNS.AddTXTRecord.
  rewrite !returned_bind.
  rewrite (run_returned _ _ (add_body_returned lib w m fqdn value ttl)).
  cbn [fst snd app]. rewrite Z.add_0_l.
  rewrite (successes_Permutation _ _ _ (wg_Wait_Permutation w _)).
  fold n. destruct (n <? MultiServerDNS.minSuccess m); reflexivity.
Qed.

Lemma coordinator_DeleteTXTRecord_returned lib w m fqdn :
  let n := successes (delete_result lib w m fqdn)
                     (indexed (MultiServerDNS.servers m)) in
  returned (MultiServerDNS.DeleteTXTRecord lib w m fqdn)
  = if n =? 0
    then Some (errorString ("failed to delete on all servers: "
                            +++ fmt.v_errors (delete_errors lib w m fqdn)))
    else None.
Proof.
  intro n. unfold MultiServerDNS.DeleteTXTRecord.
  rewrite !returned_bind.
  rewrite (run_returned _ _ (delete_body_returned lib w m fqdn)).
  cbn [fst snd app]. rewrite Z.add_0_l.
  rewrite (successes_Permutation _ _ _ (wg_Wait_Permutation w _)).
  fold n. destruct (n =? 0); reflexivity.
Qed.

(** ** Text of the errors *)

Lemma append_assoc (a b c : string) : (a +++ b) +++ c = a +++ b +++ c.
Proof. induction a as [|x a IH]; simpl; [reflexivity | now rewrite IH]. Qed.

Lemma append_nil_r (a : string) : a +++ "" = a.
Proof. induction a as [|x a IH]; simpl; [reflexivity | now rewrite IH]. Qed.

Lemma Contains_refl (s : string) : Contains s s.
Proof. exists "", "". now rewrite append_nil_r. Qed.

Lemma Contains_append_l (a b s : string) : Contains b s -> Contains (a +++ b) s.
Proof.
  intros (pre & post & ->). exists (a +++ pre), post. now rewrite append_assoc.
Qed.

Lemma Contains_append_r (a b s : string) : Contains a s -> Contains (a +++ b) s.
Proof.
  intros (pre & post & ->). exists pre, (post +++ b).
  now rewrite !append_assoc.
Qed.

Create HintDb text.
#[local] Hint Resolve Contains_refl Contains_append_l Contains_append_r : text.

Lemma Contains_join (sep s : string) (l : list string) :
  In s l -> Contains (fmt.join sep l) s.
Proof.
  induction l as [|x l IH]; intros Hin; [contradiction|].
  destruct l as [|y l].
  - destruct Hin as [->|[]]. apply Contains_refl.
  - change (fmt.join sep (x :: y :: l)) with (x +++ sep +++ fmt.join sep (y :: l)).
    destruct Hin as [->|Hin]; auto with text.
Qed.

Lemma Contains_v_errors (errs : list error) (e : error) :
  In e errs -> Contains (fmt.v_errors errs) (Error e).
Proof.
  intro Hin. unfold fmt.v_errors.
  apply Contains_append_l, Contains_append_r, Contains_join.
  now apply in_map.
Qed.

Lemma Some_inj {A : Type} (a b : A) : Some a = Some b -> a = b.
Proof. congruence. Qed.

Lemma In_failures res l g cause :
  In g l -> res g = Some cause -> In (server_error (snd g) cause) (failures res l).
Proof.
  intros Hin Hres. unfold failures. apply in_flat_map.
  exists g. split; [assumption|]. rewrite Hres. now left.
Qed.

(** ** The quorum rules *)

(** C1: [AddTXTRecord] of the coordinator succeeds exactly when the number
    of servers whose single-server add succeeds reaches floor(N/2) + 1, the
    [minSuccess] that [NewMultiServerDNS] computes; below it the call
    returns the aggregate error that reports the count, the threshold and
    the collected errors.  This holds for every list of servers, every
    behaviour of the servers and every order of completion. *)
Theorem AddTXTRecord_majority
    lib w servers zone tsigKey tsigAlg tsigSec fqdn value ttl :
  let m := MultiServerDNS.NewMultiServerDNS servers zone tsigKey tsigAlg tsigSec in
  let N := Z.of_nat (List.length servers) in
  let ok := successes (add_result lib w m fqdn value ttl) (indexed servers) in
  MultiServerDNS.minSuccess m = N / 2 + 1
  /\ (returned (MultiServerDNS.AddTXTRecord lib w m fqdn value ttl) = None
      <-> N / 2 + 1 <= ok)
  /\ returned (MultiServerDNS.AddTXTRecord lib w m fqdn value ttl)
     = if ok <? N / 2 + 1
       then Some (errorString
                    ("only " +++ fmt.d ok +++ "/" +++ fmt.d N
                     +++ " servers updated successfully (minimum "
                     +++ fmt.d (N / 2 + 1) +++ " required): "
                     +++ fmt.v_errors (add_errors lib w m fqdn value ttl)))
       else None.
Proof.
  intros m N ok.
  pose proof (minSuccess_majority servers zone tsigKey tsigAlg tsigSec) as Hmin.
  fold m N in Hmin.
  pose proof (coordinator_AddTXTRecord_returned lib w m fqdn value ttl) as Hret.
  cbv zeta in Hret. rewrite Hmin in Hret.
  change (MultiServerDNS.servers m) with servers in Hret. fold ok N in Hret.
  repeat split.
  - exact Hmin.
  - rewrite Hret. destruct (Z.ltb_spec ok (N / 2 + 1)); [discriminate | lia].
  - intro Hle. rewrite Hret.
    destruct (Z.ltb_spec ok (N / 2 + 1)); [lia | reflexivity].
  - exact Hret.
Qed.

(** C2: [DeleteTXTRecord] of the coordinator succeeds exactly when at least
    one single-server delete succeeds; when none does it returns the error
    that lists what every server answered. *)
Theorem DeleteTXTRecord_at_least_one lib w m fqdn :
  let ok := successes (delete_result lib w m fqdn)
                      (indexed (MultiServerDNS.servers m)) in
  (returned (MultiServerDNS.DeleteTXTRecord lib w m fqdn) = None <-> 1 <= ok)
  /\ returned (MultiServerDNS.DeleteTXTRecord lib w m fqdn)
     = if ok =? 0
       then Some (errorString ("failed to delete on all servers: "
                               +++ fmt.v_errors (delete_errors lib w m fqdn)))
       else None.
Proof.
  intro ok.
  pose proof (coordinator_DeleteTXTRecord_returned lib w m fqdn) as Hret.
  cbv zeta in Hret. fold ok in Hret.
  pose proof (successes_bounds (delete_result lib w m fqdn)
                               (indexed (MultiServerDNS.servers m))) as Hb.
  fold ok in Hb.
  repeat split.
  - rewrite Hret. destruct (Z.eqb_spec ok 0); [discriminate | lia].
  - intro Hle. rewrite Hret. destruct (Z.eqb_spec ok 0); [lia | reflexivity].
  - exact Hret.
Qed.

(** ** Every server is attempted, every failure is reported *)

Lemma coordinator_AddTXTRecord_exchanges lib w m fqdn value ttl :
  exchanges (trace (MultiServerDNS.AddTXTRecord lib w m fqdn value ttl))
  = map (add_call w m fqdn value ttl) (wg_Wait w (indexed (MultiServerDNS.servers m))).
Proof.
  unfold MultiServerDNS.AddTXTRecord.
  rewrite trace_bind, exchanges_app, trace_bind, exchanges_app.
  rewrite (run_exchanges _ _ (add_body_exchanges lib w m fqdn value ttl)).
  cbn [Info trace fst exchanges flat_map app].
  generalize (returned (MultiServerDNS.run (MultiServerDNS.add_body lib w m fqdn value ttl)
                          (wg_Wait w (indexed (MultiServerDNS.servers m)))
                          (0, []))).
  intro st.
  repeat match goal with
         | |- context [if ?b then _ else _] => destruct b
         end; cbn; apply app_nil_r.
Qed.

Lemma coordinator_DeleteTXTRecord_exchanges lib w m fqdn :
  exchanges (trace (MultiServerDNS.DeleteTXTRecord lib w m fqdn))
  = map (delete_call w m fqdn) (wg_Wait w (indexed (MultiServerDNS.servers m))).
Proof.
  unfold MultiServerDNS.DeleteTXTRecord.
  rewrite trace_bind, exchanges_app, trace_bind, exchanges_app.
  rewrite (run_exchanges _ _ (delete_body_exchanges lib w m fqdn)).
  cbn [Info trace fst exchanges flat_map app].
  generalize (returned (MultiServerDNS.run (MultiServerDNS.delete_body lib w m fqdn)
                          (wg_Wait w (indexed (MultiServerDNS.servers m)))
                          (0, []))).
  intro st.
  repeat match goal with
         | |- context [if ?b then _ else _] => destruct b
         end; cbn; apply app_nil_r.
Qed.

Lemma addresses_of_calls (call : nat * string -> dns.Client * dns.Msg * string)
    (servers : list string) :
  (forall g, snd (call g) = snd g +++ ":53") ->
  map snd (map call (indexed servers)) = map (fun srv => srv +++ ":53") servers.
Proof.
  intro H. rewrite map_map. rewrite <- (indexed_servers servers) at 2.
  rewrite map_map. apply map_ext. intro g. apply H.
Qed.

(** C7: a call of the coordinator's [AddTXTRecord] or [DeleteTXTRecord]
    hands the library exactly one message for each configured server,
    whatever the servers answer and whether or not the threshold is already
    met; and when the call fails, the text of the error it returns holds,
    for every server whose call failed, that server together with the
    error of its call: the errors it lists are those of the failing
    servers, one each. *)
Theorem coordinator_attempts_all_and_reports_all lib w m fqdn value ttl :
  let started := indexed (MultiServerDNS.servers m) in
  let add := MultiServerDNS.AddTXTRecord lib w m fqdn value ttl in
  let del := MultiServerDNS.DeleteTXTRecord lib w m fqdn in
  Permutation (exchanges (trace add)) (map (add_call w m fqdn value ttl) started)
  /\ Permutation (map snd (exchanges (trace add)))
                 (map (fun srv => srv +++ ":53") (MultiServerDNS.servers m))
  /\ Permutation (exchanges (trace del)) (map (delete_call w m fqdn) started)
  /\ Permutation (map snd (exchanges (trace del)))
                 (map (fun srv => srv +++ ":53") (MultiServerDNS.servers m))
  /\ (forall e, returned add = Some e ->
       forall g cause,
         In g started -> add_result lib w m fqdn value ttl g = Some cause ->
         Contains (Error e) ("server " +++ snd g +++ ": " +++ Error cause))
  /\ (forall e, returned del = Some e ->
       forall g cause,
         In g started -> delete_result lib w m fqdn g = Some cause ->
         Contains (Error e) ("server " +++ snd g +++ ": " +++ Error cause))
  /\ Permutation (add_errors lib w m fqdn value ttl)
                 (failures (add_result lib w m fqdn value ttl) started)
  /\ Permutation (delete_errors lib w m fqdn)
                 (failures (delete_result lib w m fqdn) started).
Proof.
  intros started add del.
  assert (Herrors :
            Permutation (add_errors lib w m fqdn value ttl)
                        (failures (add_result lib w m fqdn value ttl) started)
            /\ Permutation (delete_errors lib w m fqdn)
                           (failures (delete_result lib w m fqdn) started)).
  { split; apply failures_Permutation, wg_Wait_Permutation. }
  revert Herrors.
  cut (Permutation (exchanges (trace add)) (map (add_call w m fqdn value ttl) started)
       /\ Permutation (map snd (exchanges (trace add)))
                      (map (fun srv => srv +++ ":53") (MultiServerDNS.servers m))
       /\ Permutation (exchanges (trace del)) (map (delete_call w m fqdn) started)
       /\ Permutation (map snd (exchanges (trace del)))
                      (map (fun srv => srv +++ ":53") (MultiServerDNS.servers m))
       /\ (forall e, returned add = Some e ->
            forall g cause,
              In g started -> add_result lib w m fqdn value ttl g = Some cause ->
              Contains (Error e) ("server " +++ snd g +++ ": " +++ Error cause))
       /\ (forall e, returned del = Some e ->
            forall g cause,
              In g started -> delete_result lib w m fqdn g = Some cause ->
              Contains (Error e) ("server " +++ snd g +++ ": " +++ Error cause))).
  { tauto. }
  assert (Hadd : Permutation (exchanges (trace add))
                             (map (add_call w m fqdn value ttl) started)).
  { unfold add. rewrite coordinator_AddTXTRecord_exchanges.
    apply Permutation_map, wg_Wait_Permutation. }
  assert (Hdel : Permutation (exchanges (trace del))
                             (map (delete_call w m fqdn) started)).
  { unfold del. rewrite coordinator_DeleteTXTRecord_exchanges.
    apply Permutation_map, wg_Wait_Permutation. }
  split; [exact Hadd|]. split.
  { rewrite <- (addresses_of_calls (add_call w m fqdn value ttl));
      [apply Permutation_map, Hadd | reflexivity]. }
  split; [exact Hdel|]. split.
  { rewrite <- (addresses_of_calls (delete_call w m fqdn));
      [apply Permutation_map, Hdel | reflexivity]. }
  split.
  - intros e He g cause Hin Hres. unfold add in He.
    rewrite coordinator_AddTXTRecord_returned in He. cbv zeta in He.
    destruct (_ <? _) in He; [|discriminate]. apply Some_inj in He. subst e.
    unfold Error at 1. do 7 apply Contains_append_l.
    apply (Contains_v_errors _ (server_error (snd g) cause)).
    apply In_failures; [|exact Hres].
    apply Permutation_in with (l := started);
      [apply Permutation_sym, wg_Wait_Permutation | exact Hin].
  - intros e He g cause Hin Hres. unfold del in He.
    rewrite coordinator_DeleteTXTRecord_returned in He. cbv zeta in He.
    destruct (_ =? _) in He; [|discriminate]. apply Some_inj in He. subst e.
    unfold Error at 1. apply Contains_append_l.
    apply (Contains_v_errors _ (server_error (snd g) cause)).
    apply In_failures; [|exact Hres].
    apply Permutation_in with (l := started);
      [apply Permutation_sym, wg_Wait_Permutation | exact Hin].
Qed.

Lemma coordinator_attempts_all_and_reports_all_witness :
  Contains
    (Error (errorString
              ("only 1/3 servers updated successfully (minimum 2 required): "
               +++ "[server c: DNS update failed: REFUSED (rcode: 5) "
               +++ "server b: DNS update failed: REFUSED (rcode: 5)]")))
    "server b: DNS update failed: REFUSED (rcode: 5)".
Proof.
  exact (proj1 (proj2 (proj2 (proj2 (proj2
           (coordinator_attempts_all_and_reports_all
              Sample.lib Sample.one_up Sample.abc Sample.fqdn "tokenA" 60)))))
           _ eq_refl (1%nat, "b")
           (errorString "DNS update failed: REFUSED (rcode: 5)")
           (or_intror (or_introl eq_refl)) eq_refl).
Defined.

(** *** The scenarios of the fan-out *)

(** Three servers, two answer NOERROR, the third is not reached: the
    quorum of two is met. *)
Example quorum_met_exactly :
  MultiServerDNS.minSuccess Sample.abc = 2
  /\ returned (MultiServerDNS.AddTXTRecord Sample.lib Sample.two_up Sample.abc
                                           Sample.fqdn "tokenA" 60) = None.
Proof. split; reflexivity. Qed.

(** Four servers, two answer NOERROR: the quorum of three is not met and
    the two failing servers are listed. *)
Example quorum_fails :
  returned (MultiServerDNS.AddTXTRecord Sample.lib Sample.two_up Sample.abcd
                                        Sample.fqdn "tokenA" 60)
  = Some (errorString
            ("only 2/4 servers updated successfully (minimum 3 required): "
             +++ "[server c: failed to send DNS update to c: i/o timeout "
             +++ "server d: failed to send DNS update to d: i/o timeout]")).
Proof. reflexivity. Qed.

(** Three servers, one answers NOERROR, two answer REFUSED: the delete
    succeeds, and all three were asked. *)
Example cleanup_partial :
  returned (MultiServerDNS.DeleteTXTRecord Sample.lib Sample.one_up Sample.abc
                                           Sample.fqdn) = None
  /\ map snd (exchanges (trace (MultiServerDNS.DeleteTXTRecord
                                  Sample.lib Sample.one_up Sample.abc Sample.fqdn)))
     = ["c:53"; "a:53"; "b:53"].
Proof. split; reflexivity. Qed.

(** No server is reached: the delete fails. *)
Example cleanup_fails :
  returned (MultiServerDNS.DeleteTXTRecord Sample.lib Sample.all_down Sample.abc
                                           Sample.fqdn)
  = Some (errorString
            ("failed to delete on all servers: "
             +++ "[server a: failed to send DNS delete to a: i/o timeout "
             +++ "server b: failed to send DNS delete to b: i/o timeout "
             +++ "server c: failed to send DNS delete to c: i/o timeout]")).
Proof. reflexivity. Qed.

(** ** One exchange for each single-server call *)

(** C4, as stated, fails: the client signs with a fully qualified key name
    and algorithm, the answer of the server comes back with the TC bit
    set, and the client has handed the library one message only, with the
    transport left at its zero value (UDP); nothing goes out over TCP and
    the call reports success.  (The library's [ExchangeContext] is
    documented not to fall back to TCP on truncation.) *)
Lemma truncated_reply_is_not_retried :
  dns.IsFqdn (RFC2136Client.tsigKey Sample.client) = true
  /\ dns.IsFqdn (RFC2136Client.tsigAlg Sample.client) = true
  /\ (forall cl m a, exists reply,
         exchange Sample.truncated cl m a = Ok reply /\ dns.Truncated reply = true)
  /\ map (fun x => (dns.Net (fst (fst x)), snd x))
         (exchanges (trace (RFC2136Client.AddTXTRecord
                              Sample.lib Sample.client Sample.truncated
                              Sample.fqdn "tokenA" 60)))
     = [("", "10.0.0.1:53")]
  /\ returned (RFC2136Client.AddTXTRecord Sample.lib Sample.client Sample.truncated
                                          Sample.fqdn "tokenA" 60) = None
  /\ map (fun x => (dns.Net (fst (fst x)), snd x))
         (exchanges (trace (RFC2136Client.DeleteTXTRecord
                              Sample.lib Sample.client Sample.truncated
                              Sample.fqdn)))
     = [("", "10.0.0.1:53")]
  /\ returned (RFC2136Client.DeleteTXTRecord Sample.lib Sample.client
                                             Sample.truncated Sample.fqdn) = None.
Proof.
  split; [reflexivity|]. split; [reflexivity|]. split.
  - intros cl m a. exists (Sample.reply 0 true). split; reflexivity.
  - repeat split; reflexivity.
Qed.

(** C4, amended: a single-server call, add or delete, hands its update to
    the library exactly once, for [server:53], with a client whose
    transport is the default one (UDP) and whose timeout is the 10 s of
    the constructor; what the call returns is decided by that one
    exchange, by its error or else by its RCODE, and the TC bit of the
    reply is not looked at. *)
Theorem single_server_call_is_one_exchange lib srv zone tsigKey tsigAlg tsigSec
    p fqdn value ttl :
  let c := RFC2136Client.NewRFC2136Client srv zone tsigKey tsigAlg tsigSec in
  let cl := dns.mkClient "" (10 * 1000000000) [(tsigKey, tsigSec)] in
  let add := RFC2136Client.AddTXTRecord lib c p fqdn value ttl in
  let del := RFC2136Client.DeleteTXTRecord lib c p fqdn in
  exchanges (trace add)
  = [(cl, RFC2136Client.add_msg c p fqdn value ttl, srv +++ ":53")]
  /\ returned add
     = match exchange p cl (RFC2136Client.add_msg c p fqdn value ttl)
                      (srv +++ ":53") with
       | Err err =>
           Some (wrapError ("failed to send DNS update to " +++ srv
                            +++ ": " +++ Error err) err)
       | Ok reply =>
           if dns.Rcode reply =? 0 then None
           else Some (errorString ("DNS update failed: "
                                   +++ RcodeToString lib (dns.Rcode reply)
                                   +++ " (rcode: " +++ fmt.d (dns.Rcode reply)
                                   +++ ")"))
       end
  /\ exchanges (trace del)
     = [(cl, RFC2136Client.delete_msg c p fqdn, srv +++ ":53")]
  /\ returned del
     = match exchange p cl (RFC2136Client.delete_msg c p fqdn)
                      (srv +++ ":53") with
       | Err err =>
           Some (wrapError ("failed to send DNS delete to " +++ srv
                            +++ ": " +++ Error err) err)
       | Ok reply =>
           if dns.Rcode reply =? 0 then None
           else Some (errorString ("DNS delete failed: "
                                   +++ RcodeToString lib (dns.Rcode reply)
                                   +++ " (rcode: " +++ fmt.d (dns.Rcode reply)
                                   +++ ")"))
       end.
Proof.
  intros c cl add del. unfold add, del.
  rewrite AddTXTRecord_exchanges, AddTXTRecord_returned,
    DeleteTXTRecord_exchanges, DeleteTXTRecord_returned.
  repeat split; reflexivity.
Qed.

(** ** The message of the single-server delete *)

Lemma Fqdn_fixed (s : string) : dns.IsFqdn s = true -> dns.Fqdn s = s.
Proof. unfold dns.Fqdn. now intros ->. Qed.

(** C8: for every fqdn, the single-server delete hands the library, once,
    an UPDATE message whose Update section is the one record
    {name = fqdn in its fully qualified form, type TXT, class ANY, ttl 0,
    no rdata}: the deletion of the whole RRset of RFC 2136, section 2.5.2.
    No record value is part of the message, and the operation has no value
    argument. *)
Theorem DeleteTXTRecord_message lib c p fqdn :
  let msg := RFC2136Client.delete_msg c p fqdn in
  exchanges (trace (RFC2136Client.DeleteTXTRecord lib c p fqdn))
  = [(RFC2136Client.new_Client c, msg, RFC2136Client.server c +++ ":53")]
  /\ dns.Opcode msg = dns.OpcodeUpdate
  /\ dns.Questions msg
     = [dns.mkQuestion (dns.Fqdn (RFC2136Client.zone c)) dns.TypeSOA dns.ClassINET]
  /\ dns.Ns msg
     = [dns.mkRR (dns.mkHeader (if dns.IsFqdn fqdn then fqdn else fqdn +++ ".")
                               dns.TypeTXT dns.ClassANY 0 0)
                 dns.ANY].
Proof.
  intro msg. split; [apply DeleteTXTRecord_exchanges|].
  repeat split; reflexivity.
Qed.

(** ** The configuration *)

Lemma parseConfig_nil lib :
  DNS01Solver.parseConfig lib None = Err (errorString "config is empty").
Proof. reflexivity. Qed.

Lemma parseConfig_empty lib :
  DNS01Solver.parseConfig lib (Some (acmev1.mkACMESolverConfig []))
  = Err (errorString "config is empty").
Proof. reflexivity. Qed.

Lemma parseConfig_undecodable lib cfg err :
  acmev1.Raw cfg <> [] ->
  json_decode lib (acmev1.Raw cfg) = Err err ->
  DNS01Solver.parseConfig lib (Some cfg)
  = Err (wrapError ("failed to unmarshal config: " +++ Error err) err).
Proof.
  intros Hraw Hdec. unfold DNS01Solver.parseConfig, json_Unmarshal.
  rewrite Hdec. destruct (acmev1.Raw cfg); [contradiction | reflexivity].
Qed.

(** Once the document is decoded, the four tests are made on the defaults
    overwritten by the document. *)
Lemma parseConfig_decoded lib cfg doc :
  acmev1.Raw cfg <> [] ->
  json_decode lib (acmev1.Raw cfg) = Ok doc ->
  DNS01Solver.parseConfig lib (Some cfg)
  = let config :=
      json.store doc (mkConfig [] "" "" "hmac-sha256" "" "secret" 60) in
    if Z.of_nat (List.length (Servers config)) =? 0 then
      Err (errorString "servers list is required")
    else if String.eqb (Zone config) "" then
      Err (errorString "zone is required")
    else if String.eqb (TSIGKeyName config) "" then
      Err (errorString "tsigKeyName is required")
    else if String.eqb (TSIGSecretName config) "" then
      Err (errorString "tsigSecretName is required")
    else Ok config.
Proof.
  intros Hraw Hdec. unfold DNS01Solver.parseConfig, json_Unmarshal.
  rewrite Hdec.
  destruct (acmev1.Raw cfg) as [|b raw]; [contradiction | reflexivity].
Qed.

(** C5, as stated, fails: this document has its list of servers and its
    three required texts, none is absent, and [parseConfig] rejects it,
    because the zone it gives is the empty string. *)
Lemma parseConfig_rejects_empty_zone :
  json_decode Sample.lib Sample.empty_zone
  = Ok (json.mkDoc (Some ["10.0.0.1"]) (Some "") (Some "k") None (Some "s") None None)
  /\ DNS01Solver.parseConfig Sample.lib
       (Some (acmev1.mkACMESolverConfig Sample.empty_zone))
     = Err (errorString "zone is required").
Proof. split; reflexivity. Qed.

(** C5, amended: for every configuration document that encoding/json
    decodes, [parseConfig] returns an error that names the field when the
    list of servers is absent or empty, or when zone, tsigKeyName or
    tsigSecretName is absent or the empty string; otherwise it succeeds
    with the values of the document, and tsigAlgorithm is "hmac-sha256",
    tsigSecretKey is "secret" and ttl is 60 where the document does not
    give them.  (A nil or empty document and one that does not decode are
    rejected too: [parseConfig_nil], [parseConfig_empty],
    [parseConfig_undecodable].) *)
Theorem parseConfig_required_and_defaults lib cfg doc :
  acmev1.Raw cfg <> [] ->
  json_decode lib (acmev1.Raw cfg) = Ok doc ->
  DNS01Solver.parseConfig lib (Some cfg)
  = if no_servers (json.servers doc) then
      Err (errorString "servers list is required")
    else if blank (json.zone doc) then
      Err (errorString "zone is required")
    else if blank (json.tsigKeyName doc) then
      Err (errorString "tsigKeyName is required")
    else if blank (json.tsigSecretName doc) then
      Err (errorString "tsigSecretName is required")
    else
      Ok (mkConfig (json.set (json.servers doc) [])
                   (json.set (json.zone doc) "")
                   (json.set (json.tsigKeyName doc) "")
                   (json.set (json.tsigAlgorithm doc) "hmac-sha256")
                   (json.set (json.tsigSecretName doc) "")
                   (json.set (json.tsigSecretKey doc) "secret")
                   (json.set (json.ttl doc) 60)).
Proof.
  intros Hraw Hdec. rewrite (parseConfig_decoded lib cfg doc Hraw Hdec).
  cbv zeta.
  destruct doc as [servers zone keyName alg secretName secretKey ttl].
  unfold json.store.
  cbn [json.servers json.zone json.tsigKeyName json.tsigAlgorithm
       json.tsigSecretName json.tsigSecretKey json.ttl
       Servers Zone TSIGKeyName TSIGAlgorithm TSIGSecretName TSIGSecretKey TTL].
  destruct servers as [[|srv servers]|]; try reflexivity.
  change (Z.of_nat (List.length (json.set (Some (srv :: servers)) [])) =? 0)
    with false.
  cbv iota. cbn [no_servers].
  destruct zone as [zone|]; cbn [json.set blank]; [|reflexivity].
  destruct (String.eqb zone ""); [reflexivity|].
  destruct keyName as [keyName|]; cbn [json.set blank]; [|reflexivity].
  destruct (String.eqb keyName ""); [reflexivity|].
  destruct secretName as [secretName|]; cbn [json.set blank]; [|reflexivity].
  destruct (String.eqb secretName ""); reflexivity.
Qed.

Lemma parseConfig_required_and_defaults_witness :
  DNS01Solver.parseConfig Sample.lib
    (Some (acmev1.mkACMESolverConfig Sample.three_servers))
  = Ok (mkConfig ["10.0.0.1"; "10.0.0.2"; "10.0.0.3"] "example.com" "acme-key"
                 "hmac-sha256" "tsig" "secret" 60).
Proof.
  apply (parseConfig_required_and_defaults
           Sample.lib (acmev1.mkACMESolverConfig Sample.three_servers)
           (json.mkDoc (Some ["10.0.0.1"; "10.0.0.2"; "10.0.0.3"])
                       (Some "example.com") (Some "acme-key") None
                       (Some "tsig") None None)).
  - discriminate.
  - reflexivity.
Defined.

(** ** The challenge handler *)

Lemma getTSIGSecret_exchanges s namespace secretName key :
  exchanges (trace (DNS01Solver.getTSIGSecret s namespace secretName key)) = [].
Proof.
  unfold DNS01Solver.getTSIGSecret.
  destruct (DNS01Solver.client s) as [cl|]; [|reflexivity].
  unfold bind, trace. cbn [fst snd].
  destruct (kubernetes.Secrets_Get cl namespace secretName) as [secret|err];
    [|reflexivity].
  destruct (lookup key (kubernetes.Data secret)); reflexivity.
Qed.

Lemma getTSIGSecret_logs s namespace secretName key :
  logs (trace (DNS01Solver.getTSIGSecret s namespace secretName key)) = [].
Proof.
  unfold DNS01Solver.getTSIGSecret.
  destruct (DNS01Solver.client s) as [cl|]; [|reflexivity].
  unfold bind, trace. cbn [fst snd].
  destruct (kubernetes.Secrets_Get cl namespace secretName) as [secret|err];
    [|reflexivity].
  destruct (lookup key (kubernetes.Data secret)); reflexivity.
Qed.

Section Handler.

Variables (lib : Lib) (w : World) (s : DNS01Solver.t).
Variable ch : v1alpha1.ChallengeRequest.

Let fqdn := v1alpha1.ResolvedFQDN ch.
Let namespace := v1alpha1.ResourceNamespace ch.

Lemma Present_config_error e :
  DNS01Solver.parseConfig lib (v1alpha1.Config ch) = Err e ->
  DNS01Solver.Present lib w s ch
  = ([Log (zap.mkEntry zap.InfoLevel "Presenting DNS01 challenge"
                       [zap.String "fqdn" fqdn;
                        zap.String "key" (v1alpha1.Key ch);
                        zap.String "namespace" namespace])],
     Some (wrapError ("failed to parse config: " +++ Error e) e)).
Proof. intro H. unfold DNS01Solver.Present. rewrite H. reflexivity. Qed.

Lemma CleanUp_config_error e :
  DNS01Solver.parseConfig lib (v1alpha1.Config ch) = Err e ->
  DNS01Solver.CleanUp lib w s ch
  = ([Log (zap.mkEntry zap.InfoLevel "Cleaning up DNS01 challenge"
                       [zap.String "fqdn" fqdn;
                        zap.String "key" (v1alpha1.Key ch);
                        zap.String "namespace" namespace])],
     Some (wrapError ("failed to parse config: " +++ Error e) e)).
Proof. intro H. unfold DNS01Solver.CleanUp. rewrite H. reflexivity. Qed.

Variable config : Config.
Hypothesis config_ok : DNS01Solver.parseConfig lib (v1alpha1.Config ch) = Ok config.

Let secret :=
  DNS01Solver.getTSIGSecret s namespace (TSIGSecretName config) (TSIGSecretKey config).

Lemma Present_secret_error e :
  returned secret = Err e ->
  returned (DNS01Solver.Present lib w s ch)
  = Some (wrapError ("failed to get TSIG secret: " +++ Error e) e)
  /\ exchanges (trace (DNS01Solver.Present lib w s ch)) = [].
Proof.
  intro H. unfold DNS01Solver.Present. rewrite config_ok.
  rewrite !returned_bind, !trace_bind, !exchanges_app.
  fold namespace secret. rewrite H.
  unfold secret. rewrite getTSIGSecret_exchanges. split; reflexivity.
Qed.

Lemma CleanUp_secret_error e :
  returned secret = Err e ->
  returned (DNS01Solver.CleanUp lib w s ch)
  = Some (wrapError ("failed to get TSIG secret: " +++ Error e) e)
  /\ exchanges (trace (DNS01Solver.CleanUp lib w s ch)) = [].
Proof.
  intro H. unfold DNS01Solver.CleanUp. rewrite config_ok.
  rewrite !returned_bind, !trace_bind, !exchanges_app.
  fold namespace secret. rewrite H.
  unfold secret. rewrite getTSIGSecret_exchanges. split; reflexivity.
Qed.

Variable tsigSecret : string.
Hypothesis secret_ok : returned secret = Ok tsigSecret.

Let dnsManager :=
  MultiServerDNS.NewMultiServerDNS (Servers config) (Zone config)
    (TSIGKeyName config) (TSIGAlgorithm config) tsigSecret.

Lemma Present_exchanges :
  exchanges (trace (DNS01Solver.Present lib w s ch))
  = map (add_call w dnsManager fqdn (v1alpha1.Key ch) (TTL config))
        (wg_Wait w (indexed (Servers config))).
Proof.
  unfold DNS01Solver.Present. rewrite config_ok.
  rewrite !trace_bind, !exchanges_app.
  fold namespace secret. rewrite secret_ok.
  unfold secret at 1. rewrite getTSIGSecret_exchanges.
  rewrite trace_bind, exchanges_app.
  fold dnsManager fqdn. rewrite coordinator_AddTXTRecord_exchanges.
  destruct (returned (MultiServerDNS.AddTXTRecord _ _ _ _ _ _));
    cbn; apply app_nil_r.
Qed.

Lemma CleanUp_exchanges :
  exchanges (trace (DNS01Solver.CleanUp lib w s ch))
  = map (delete_call w dnsManager fqdn) (wg_Wait w (indexed (Servers config))).
Proof.
  unfold DNS01Solver.CleanUp. rewrite config_ok.
  rewrite !trace_bind, !exchanges_app.
  fold namespace secret. rewrite secret_ok.
  unfold secret at 1. rewrite getTSIGSecret_exchanges.
  rewrite trace_bind, exchanges_app.
  fold dnsManager fqdn. rewrite coordinator_DeleteTXTRecord_exchanges.
  destruct (returned (MultiServerDNS.DeleteTXTRecord _ _ _ _));
    cbn; apply app_nil_r.
Qed.

End Handler.

(** ** Errors of the configuration and of the secret come first *)

(** C6: when [parseConfig] fails, [Present] and [CleanUp] return its error
    (wrapped with the text "failed to parse config") and their trace holds
    no read of the secret store and no exchange with a server; when the
    configuration is accepted and [getTSIGSecret] fails, they return its
    error and their trace holds no exchange with a server. *)
Theorem errors_return_before_the_network lib w s ch :
  (forall e,
      DNS01Solver.parseConfig lib (v1alpha1.Config ch) = Err e ->
      returned (DNS01Solver.Present lib w s ch)
      = Some (wrapError ("failed to parse config: " +++ Error e) e)
      /\ secret_reads (trace (DNS01Solver.Present lib w s ch)) = []
      /\ exchanges (trace (DNS01Solver.Present lib w s ch)) = []
      /\ returned (DNS01Solver.CleanUp lib w s ch)
         = Some (wrapError ("failed to parse config: " +++ Error e) e)
      /\ secret_reads (trace (DNS01Solver.CleanUp lib w s ch)) = []
      /\ exchanges (trace (DNS01Solver.CleanUp lib w s ch)) = [])
  /\ (forall config e,
        DNS01Solver.parseConfig lib (v1alpha1.Config ch) = Ok config ->
        returned (DNS01Solver.getTSIGSecret s (v1alpha1.ResourceNamespace ch)
                    (TSIGSecretName config) (TSIGSecretKey config)) = Err e ->
        returned (DNS01Solver.Present lib w s ch)
        = Some (wrapError ("failed to get TSIG secret: " +++ Error e) e)
        /\ exchanges (trace (DNS01Solver.Present lib w s ch)) = []
        /\ returned (DNS01Solver.CleanUp lib w s ch)
           = Some (wrapError ("failed to get TSIG secret: " +++ Error e) e)
        /\ exchanges (trace (DNS01Solver.CleanUp lib w s ch)) = []).
Proof.
  split.
  - intros e He.
    rewrite (Present_config_error lib w s ch e He).
    rewrite (CleanUp_config_error lib w s ch e He).
    repeat split; reflexivity.
  - intros config e Hcfg Hsec.
    destruct (Present_secret_error lib w s ch config Hcfg e Hsec) as [-> ->].
    destruct (CleanUp_secret_error lib w s ch config Hcfg e Hsec) as [-> ->].
    repeat split; reflexivity.
Qed.

Lemma errors_return_before_the_network_witness :
  (returned (DNS01Solver.Present Sample.lib Sample.two_up (Sample.solver "c2VjcmV0")
               (Sample.challenge Sample.fqdn "tokenA" Sample.no_servers))
   = Some (wrapError "failed to parse config: servers list is required"
                     (errorString "servers list is required"))
   /\ secret_reads
        (trace (DNS01Solver.Present Sample.lib Sample.two_up (Sample.solver "c2VjcmV0")
                  (Sample.challenge Sample.fqdn "tokenA" Sample.no_servers))) = []
   /\ exchanges
        (trace (DNS01Solver.Present Sample.lib Sample.two_up (Sample.solver "c2VjcmV0")
                  (Sample.challenge Sample.fqdn "tokenA" Sample.no_servers))) = [])
  /\ (returned (DNS01Solver.CleanUp Sample.lib Sample.two_up Sample.uninitialized
                  (Sample.challenge Sample.fqdn "tokenA" Sample.three_servers))
      = Some (wrapError "failed to get TSIG secret: kubernetes client not initialized"
                        (errorString "kubernetes client not initialized"))
      /\ exchanges
           (trace (DNS01Solver.CleanUp Sample.lib Sample.two_up Sample.uninitialized
                     (Sample.challenge Sample.fqdn "tokenA" Sample.three_servers)))
         = []).
Proof.
  split.
  - destruct (proj1 (errors_return_before_the_network
                       Sample.lib Sample.two_up (Sample.solver "c2VjcmV0")
                       (Sample.challenge Sample.fqdn "tokenA" Sample.no_servers))
                    (errorString "servers list is required") eq_refl)
      as (H1 & H2 & H3 & _).
    exact (conj H1 (conj H2 H3)).
  - destruct (proj2 (errors_return_before_the_network
                       Sample.lib Sample.two_up Sample.uninitialized
                       (Sample.challenge Sample.fqdn "tokenA" Sample.three_servers))
                    (mkConfig ["10.0.0.1"; "10.0.0.2"; "10.0.0.3"] "example.com"
                              "acme-key" "hmac-sha256" "tsig" "secret" 60)
                    (errorString "kubernetes client not initialized")
                    eq_refl eq_refl)
      as (_ & _ & H3 & H4).
    exact (conj H3 H4).
Defined.

(** ** Zone containment *)

Lemma HasSuffix_spec (s suffix : string) :
  HasSuffix s suffix = true <-> exists pre, s = pre +++ suffix.
Proof.
  induction s as [|a s IH]; cbn [HasSuffix].
  - rewrite orb_false_r, String.eqb_eq. split.
    + intros <-. now exists "".
    + intros ([|b pre] & H); [exact H | discriminate].
  - rewrite orb_true_iff, String.eqb_eq, IH. split.
    + intros [<- | (pre & ->)].
      * now exists "".
      * now exists (String.String a pre).
    + intros ([|b pre] & H).
      * now left.
      * right. exists pre. simpl in H. congruence.
Qed.

Lemma add_msg_contained c p fqdn value ttl :
  contained (RFC2136Client.add_msg c p fqdn value ttl)
  = in_zone fqdn (RFC2136Client.zone c).
Proof.
  unfold contained, in_zone. cbn.
  now rewrite !andb_true_r.
Qed.

Lemma delete_msg_contained c p fqdn :
  contained (RFC2136Client.delete_msg c p fqdn)
  = in_zone fqdn (RFC2136Client.zone c).
Proof.
  unfold contained, in_zone. cbn.
  now rewrite !andb_true_r.
Qed.

(** C9, as stated, fails: the name of this challenge lies outside the
    configured zone example.com, the key name and the algorithm are fully
    qualified, and [Present] hands the library, for each of the three
    servers, an update of zone example.com for that name; two servers
    answer NOERROR and [Present] returns nil. *)
Lemma request_outside_the_zone_is_sent :
  in_zone Sample.outside_fqdn "example.com" = false
  /\ DNS01Solver.parseConfig Sample.lib
       (Some (acmev1.mkACMESolverConfig Sample.qualified))
     = Ok Sample.qualified_config
  /\ map (fun x => (snd x,
                    map dns.qName (dns.Questions (snd (fst x))),
                    map (fun rr => dns.Name (dns.Hdr rr)) (dns.Ns (snd (fst x)))))
         (exchanges
            (trace (DNS01Solver.Present
                      Sample.lib Sample.two_up (Sample.solver "c2VjcmV0")
                      (Sample.challenge Sample.outside_fqdn "tokenA"
                                        Sample.qualified))))
     = [("10.0.0.1:53", ["example.com."], ["_acme-challenge.app.other.org."]);
        ("10.0.0.2:53", ["example.com."], ["_acme-challenge.app.other.org."]);
        ("10.0.0.3:53", ["example.com."], ["_acme-challenge.app.other.org."])]
  /\ returned (DNS01Solver.Present
                 Sample.lib Sample.two_up (Sample.solver "c2VjcmV0")
                 (Sample.challenge Sample.outside_fqdn "tokenA" Sample.qualified))
     = None.
Proof. repeat split; reflexivity. Qed.

(** C9, amended: no layer compares the name of the challenge with the
    zone.  Once the configuration is accepted and the secret is read,
    [Present] and [CleanUp] hand the library one update for every
    configured server (one call of [ExchangeContext] for [server:53]),
    whatever the name is, with the configured zone, fully qualified, as
    the name of the Zone section and the name of the challenge, fully
    qualified, as the name of the one record of the Update section; so a
    request that is handed over lies within the zone exactly when the name
    the caller gave does. *)
Theorem dispatch_does_not_check_the_zone lib w s ch config tsigSecret :
  DNS01Solver.parseConfig lib (v1alpha1.Config ch) = Ok config ->
  returned (DNS01Solver.getTSIGSecret s (v1alpha1.ResourceNamespace ch)
              (TSIGSecretName config) (TSIGSecretKey config)) = Ok tsigSecret ->
  Permutation (map snd (exchanges (trace (DNS01Solver.Present lib w s ch))))
              (map (fun srv => srv +++ ":53") (Servers config))
  /\ Forall (fun x => contained (snd (fst x))
                      = in_zone (v1alpha1.ResolvedFQDN ch) (Zone config))
            (exchanges (trace (DNS01Solver.Present lib w s ch)))
  /\ Permutation (map snd (exchanges (trace (DNS01Solver.CleanUp lib w s ch))))
                 (map (fun srv => srv +++ ":53") (Servers config))
  /\ Forall (fun x => contained (snd (fst x))
                      = in_zone (v1alpha1.ResolvedFQDN ch) (Zone config))
            (exchanges (trace (DNS01Solver.CleanUp lib w s ch)))
  /\ Forall (fun x =>
               map dns.qName (dns.Questions (snd (fst x)))
               = [dns.Fqdn (Zone config)]
               /\ map (fun rr => dns.Name (dns.Hdr rr)) (dns.Ns (snd (fst x)))
                  = [dns.Fqdn (v1alpha1.ResolvedFQDN ch)])
            (exchanges (trace (DNS01Solver.Present lib w s ch)))
  /\ Forall (fun x =>
               map dns.qName (dns.Questions (snd (fst x)))
               = [dns.Fqdn (Zone config)]
               /\ map (fun rr => dns.Name (dns.Hdr rr)) (dns.Ns (snd (fst x)))
                  = [dns.Fqdn (v1alpha1.ResolvedFQDN ch)])
            (exchanges (trace (DNS01Solver.CleanUp lib w s ch))).
Proof.
  intros Hcfg Hsec.
  rewrite (Present_exchanges lib w s ch config Hcfg tsigSecret Hsec).
  rewrite (CleanUp_exchanges lib w s ch config Hcfg tsigSecret Hsec).
  set (m := MultiServerDNS.NewMultiServerDNS _ _ _ _ _).
  split; [|split; [|split; [|split; [|split]]]].
  - rewrite <- (addresses_of_calls
                  (add_call w m (v1alpha1.ResolvedFQDN ch) (v1alpha1.Key ch)
                            (TTL config)) (Servers config)) by reflexivity.
    apply Permutation_map, Permutation_map, wg_Wait_Permutation.
  - apply Forall_map, Forall_forall. intros g _. apply add_msg_contained.
  - rewrite <- (addresses_of_calls
                  (delete_call w m (v1alpha1.ResolvedFQDN ch)) (Servers config))
      by reflexivity.
    apply Permutation_map, Permutation_map, wg_Wait_Permutation.
  - apply Forall_map, Forall_forall. intros g _. apply delete_msg_contained.
  - apply Forall_map, Forall_forall. intros g _. split; reflexivity.
  - apply Forall_map, Forall_forall. intros g _. split; reflexivity.
Qed.

Lemma dispatch_does_not_check_the_zone_witness :
  Permutation
    (map snd (exchanges
                (trace (DNS01Solver.Present
                          Sample.lib Sample.two_up (Sample.solver "c2VjcmV0")
                          (Sample.challenge Sample.outside_fqdn "tokenA"
                                            Sample.qualified)))))
    ["10.0.0.1:53"; "10.0.0.2:53"; "10.0.0.3:53"]
  /\ Forall (fun x => contained (snd (fst x)) = false)
            (exchanges
               (trace (DNS01Solver.Present
                         Sample.lib Sample.two_up (Sample.solver "c2VjcmV0")
                         (Sample.challenge Sample.outside_fqdn "tokenA"
                                           Sample.qualified))))
  /\ Forall (fun x =>
               map dns.qName (dns.Questions (snd (fst x))) = ["example.com."]
               /\ map (fun rr => dns.Name (dns.Hdr rr)) (dns.Ns (snd (fst x)))
                  = ["_acme-challenge.app.other.org."])
            (exchanges
               (trace (DNS01Solver.Present
                         Sample.lib Sample.two_up (Sample.solver "c2VjcmV0")
                         (Sample.challenge Sample.outside_fqdn "tokenA"
                                           Sample.qualified)))).
Proof.
  destruct (dispatch_does_not_check_the_zone
              Sample.lib Sample.two_up (Sample.solver "c2VjcmV0")
              (Sample.challenge Sample.outside_fqdn "tokenA" Sample.qualified)
              Sample.qualified_config "c2VjcmV0" eq_refl eq_refl)
    as (H1 & H2 & _ & _ & H5 & _).
  exact (conj H1 (conj H2 H5)).
Defined.

(** ** A negative ttl *)

Lemma add_msg_Ns c p fqdn value ttl :
  dns.Ns (RFC2136Client.add_msg c p fqdn value ttl)
  = [dns.mkRR (dns.mkHeader (dns.Fqdn fqdn) dns.TypeTXT dns.ClassINET
                            (ttl mod 2 ^ 32) 0)
              (dns.TXT [value])].
Proof. reflexivity. Qed.

(** C10: a document that has its required fields and gives a negative
    integer for ttl is accepted by [parseConfig], with that negative [TTL];
    the single-server add puts ttl modulo 2^32 in the TXT record; and no
    layer in between looks at the sign: once the secret is read, [Present]
    sends every configured server a TXT record whose TTL is ttl modulo
    2^32. *)
Theorem negative_ttl_is_sent_modulo_2_32 lib w s ch cfg doc t tsigSecret :
  v1alpha1.Config ch = Some cfg ->
  acmev1.Raw cfg <> [] ->
  json_decode lib (acmev1.Raw cfg) = Ok doc ->
  no_servers (json.servers doc) = false ->
  blank (json.zone doc) = false ->
  blank (json.tsigKeyName doc) = false ->
  blank (json.tsigSecretName doc) = false ->
  json.ttl doc = Some t ->
  t < 0 ->
  let config :=
    mkConfig (json.set (json.servers doc) []) (json.set (json.zone doc) "")
             (json.set (json.tsigKeyName doc) "")
             (json.set (json.tsigAlgorithm doc) "hmac-sha256")
             (json.set (json.tsigSecretName doc) "")
             (json.set (json.tsigSecretKey doc) "secret") t in
  DNS01Solver.parseConfig lib (v1alpha1.Config ch) = Ok config
  /\ (forall c p fqdn value,
         dns.Ns (RFC2136Client.add_msg c p fqdn value (TTL config))
         = [dns.mkRR (dns.mkHeader (dns.Fqdn fqdn) dns.TypeTXT dns.ClassINET
                                   (t mod 2 ^ 32) 0)
                     (dns.TXT [value])])
  /\ (returned (DNS01Solver.getTSIGSecret s (v1alpha1.ResourceNamespace ch)
                  (TSIGSecretName config) (TSIGSecretKey config))
      = Ok tsigSecret ->
      List.length (exchanges (trace (DNS01Solver.Present lib w s ch)))
      = List.length (Servers config)
      /\ Forall (fun x =>
                   dns.Ns (snd (fst x))
                   = [dns.mkRR (dns.mkHeader (dns.Fqdn (v1alpha1.ResolvedFQDN ch))
                                             dns.TypeTXT dns.ClassINET
                                             (t mod 2 ^ 32) 0)
                               (dns.TXT [v1alpha1.Key ch])])
                (exchanges (trace (DNS01Solver.Present lib w s ch)))).
Proof.
  intros Hch Hraw Hdec Hservers Hzone HkeyName HsecretName Httl Hneg config.
  assert (Hcfg : DNS01Solver.parseConfig lib (v1alpha1.Config ch) = Ok config).
  { rewrite Hch, (parseConfig_decoded lib cfg doc Hraw Hdec). cbv zeta.
    unfold config. clear config.
    destruct doc as [servers zone keyName alg secretName secretKey ttl].
    cbn [json.servers json.zone json.tsigKeyName json.tsigSecretName json.ttl
         json.tsigAlgorithm json.tsigSecretKey] in *.
    subst ttl.
    destruct servers as [[|srv servers]|]; try discriminate.
    destruct zone as [zone|]; [|discriminate].
    destruct keyName as [keyName|]; [|discriminate].
    destruct secretName as [secretName|]; [|discriminate].
    cbn [blank] in Hzone, HkeyName, HsecretName.
    unfold json.store.
    cbn [json.servers json.zone json.tsigKeyName json.tsigSecretName json.ttl
         json.tsigAlgorithm json.tsigSecretKey json.set
         Servers Zone TSIGKeyName TSIGAlgorithm TSIGSecretName TSIGSecretKey TTL].
    rewrite Hzone, HkeyName, HsecretName. reflexivity. }
  split; [exact Hcfg|]. split.
  - intros c p fqdn value. apply add_msg_Ns.
  - intro Hsec.
    rewrite (Present_exchanges lib w s ch config Hcfg tsigSecret Hsec). split.
    + rewrite length_map.
      rewrite (Permutation_length (wg_Wait_Permutation w _)).
      apply indexed_length.
    + apply Forall_map, Forall_forall. intros g _. apply add_msg_Ns.
Qed.

Lemma negative_ttl_is_sent_modulo_2_32_witness :
  DNS01Solver.parseConfig Sample.lib
    (Some (acmev1.mkACMESolverConfig Sample.negative_ttl))
  = Ok (mkConfig ["10.0.0.1"] "example.com" "acme-key" "hmac-sha256" "tsig"
                 "secret" (-1))
  /\ Forall (fun x =>
               dns.Ns (snd (fst x))
               = [dns.mkRR (dns.mkHeader Sample.fqdn dns.TypeTXT dns.ClassINET
                                         4294967295 0)
                           (dns.TXT ["tokenA"])])
            (exchanges
               (trace (DNS01Solver.Present
                         Sample.lib Sample.two_up (Sample.solver "c2VjcmV0")
                         (Sample.challenge Sample.fqdn "tokenA"
                                           Sample.negative_ttl)))).
Proof.
  destruct (negative_ttl_is_sent_modulo_2_32
              Sample.lib Sample.two_up (Sample.solver "c2VjcmV0")
              (Sample.challenge Sample.fqdn "tokenA" Sample.negative_ttl)
              (acmev1.mkACMESolverConfig Sample.negative_ttl)
              (json.mkDoc (Some ["10.0.0.1"]) (Some "example.com")
                          (Some "acme-key") None (Some "tsig") None (Some (-1)))
              (-1) "c2VjcmV0"
              eq_refl ltac:(discriminate) eq_refl eq_refl eq_refl eq_refl eq_refl
              eq_refl eq_refl)
    as (Hcfg & _ & Hsent).
  exact (conj Hcfg (proj2 (Hsent eq_refl))).
Defined.

(** ** The TSIG secret and the challenge key in the output *)

Lemma same_output_refl {A : Type} (r : IO A) : same_output r r.
Proof. split; reflexivity. Qed.

Lemma same_output_bind {A B : Type} (m1 m2 : IO A) (k1 k2 : A -> IO B) :
  same_output m1 m2 ->
  (forall a, same_output (k1 a) (k2 a)) ->
  same_output (bind m1 k1) (bind m2 k2).
Proof.
  intros [Hlogs Hret] Hk. unfold same_output.
  rewrite !trace_bind, !logs_app, !returned_bind, Hlogs, Hret.
  destruct (Hk (returned m2)) as [-> ->]. split; reflexivity.
Qed.

Lemma completion_ext {A : Type} (f1 f2 : nat -> nat) :
  (forall step, f1 step = f2 step) ->
  forall fuel step (running : list A),
    completion f1 step fuel running = completion f2 step fuel running.
Proof.
  intros Hf. induction fuel as [|fuel IH]; intros step running; simpl.
  - reflexivity.
  - rewrite Hf. destruct (nth_error running _); [|reflexivity].
    f_equal. apply IH.
Qed.

Lemma lookup_same_keys {A : Type} (R : A -> A -> Prop) key m1 m2 :
  same_keys R m1 m2 ->
  match lookup key m1, lookup key m2 with
  | Some a1, Some a2 => R a1 a2
  | None, None => True
  | _, _ => False
  end.
Proof.
  induction 1 as [|[k1 a1] [k2 a2] m1 m2 [Hk Ha] _ IH]; simpl.
  - exact I.
  - simpl in Hk, Ha. subst k2. destruct (String.eqb k1 key); assumption.
Qed.

Section Secret.

Variable R : string -> string -> Prop.
Variable lib : Lib.
Variables (srv zone tsigKey tsigAlg sec1 sec2 : string).
Hypothesis secrets : R sec1 sec2.
Variables (p1 p2 : Peer).
Hypothesis agree : peers_agree R p1 p2.

Let c1 := RFC2136Client.NewRFC2136Client srv zone tsigKey tsigAlg sec1.
Let c2 := RFC2136Client.NewRFC2136Client srv zone tsigKey tsigAlg sec2.

Lemma new_Client_same_but_secret :
  same_but_secret R (RFC2136Client.new_Client c1) (RFC2136Client.new_Client c2).
Proof.
  repeat split. repeat constructor. exact secrets.
Qed.

Lemma add_msg_secret fqdn value ttl :
  RFC2136Client.add_msg c1 p1 fqdn value ttl
  = RFC2136Client.add_msg c2 p2 fqdn value ttl.
Proof.
  destruct agree as (Hid & Hnow & _).
  unfold RFC2136Client.add_msg. rewrite Hid, Hnow. reflexivity.
Qed.

Lemma delete_msg_secret fqdn :
  RFC2136Client.delete_msg c1 p1 fqdn = RFC2136Client.delete_msg c2 p2 fqdn.
Proof.
  destruct agree as (Hid & Hnow & _).
  unfold RFC2136Client.delete_msg. rewrite Hid, Hnow. reflexivity.
Qed.

Lemma client_AddTXTRecord_secret fqdn value ttl :
  same_output (RFC2136Client.AddTXTRecord lib c1 p1 fqdn value ttl)
              (RFC2136Client.AddTXTRecord lib c2 p2 fqdn value ttl).
Proof.
  pose proof (add_msg_secret fqdn value ttl) as Hmsg.
  destruct agree as (_ & _ & Hanswer).
  specialize (Hanswer _ _ (RFC2136Client.add_msg c2 p2 fqdn value ttl)
                      (srv +++ ":53") new_Client_same_but_secret).
  unfold same_output, RFC2136Client.AddTXTRecord, ExchangeContext, bind,
    trace, returned.
  cbn [fst snd]. rewrite Hmsg.
  change (RFC2136Client.server c1) with srv.
  change (RFC2136Client.server c2) with srv.
  change (RFC2136Client.zone c1) with zone.
  change (RFC2136Client.zone c2) with zone.
  destruct (exchange p1 _ _ _) as [reply1|e1],
           (exchange p2 _ _ _) as [reply2|e2];
    cbn [same_answer] in Hanswer; try contradiction.
  - rewrite Hanswer.
    destruct (negb (dns.Rcode reply2 =? dns.RcodeSuccess)); split; reflexivity.
  - subst e2. split; reflexivity.
Qed.

Lemma client_DeleteTXTRecord_secret fqdn :
  same_output (RFC2136Client.DeleteTXTRecord lib c1 p1 fqdn)
              (RFC2136Client.DeleteTXTRecord lib c2 p2 fqdn).
Proof.
  pose proof (delete_msg_secret fqdn) as Hmsg.
  destruct agree as (_ & _ & Hanswer).
  specialize (Hanswer _ _ (RFC2136Client.delete_msg c2 p2 fqdn)
                      (srv +++ ":53") new_Client_same_but_secret).
  unfold same_output, RFC2136Client.DeleteTXTRecord, ExchangeContext, bind,
    trace, returned.
  cbn [fst snd]. rewrite Hmsg.
  change (RFC2136Client.server c1) with srv.
  change (RFC2136Client.server c2) with srv.
  change (RFC2136Client.zone c1) with zone.
  change (RFC2136Client.zone c2) with zone.
  destruct (exchange p1 _ _ _) as [reply1|e1],
           (exchange p2 _ _ _) as [reply2|e2];
    cbn [same_answer] in Hanswer; try contradiction.
  - rewrite Hanswer.
    destruct (negb (dns.Rcode reply2 =? dns.RcodeSuccess)); split; reflexivity.
  - subst e2. split; reflexivity.
Qed.

End Secret.

Section SecretFanOut.

Variable R : string -> string -> Prop.
Variable lib : Lib.
Variables (w1 w2 : World).
Hypothesis agree : worlds_agree R w1 w2.
Variable servers : list string.
Variables (zone tsigKey tsigAlg sec1 sec2 : string).
Hypothesis secrets : R sec1 sec2.

Let m1 := MultiServerDNS.NewMultiServerDNS servers zone tsigKey tsigAlg sec1.
Let m2 := MultiServerDNS.NewMultiServerDNS servers zone tsigKey tsigAlg sec2.

Lemma wg_Wait_agree {A : Type} (started : list A) :
  wg_Wait w1 started = wg_Wait w2 started.
Proof. apply completion_ext, agree. Qed.

Lemma run_secret body1 body2 :
  (forall g st, same_output (body1 g st) (body2 g st)) ->
  forall l st,
    same_output (MultiServerDNS.run body1 l st) (MultiServerDNS.run body2 l st).
Proof.
  intros Hbody. induction l as [|g l IH]; intro st; simpl MultiServerDNS.run.
  - apply same_output_refl.
  - apply same_output_bind; [apply Hbody | intro st'; apply IH].
Qed.

Lemma coordinator_AddTXTRecord_secret fqdn value ttl :
  same_output (MultiServerDNS.AddTXTRecord lib w1 m1 fqdn value ttl)
              (MultiServerDNS.AddTXTRecord lib w2 m2 fqdn value ttl).
Proof.
  unfold MultiServerDNS.AddTXTRecord.
  apply same_output_bind; [apply same_output_refl | intros _].
  rewrite wg_Wait_agree.
  apply same_output_bind; [|intro st; apply same_output_refl].
  apply run_secret. intros g st. unfold MultiServerDNS.add_body.
  apply same_output_bind; [|intro r; apply same_output_refl].
  apply (client_AddTXTRecord_secret R); [exact secrets | apply agree].
Qed.

Lemma coordinator_DeleteTXTRecord_secret fqdn :
  same_output (MultiServerDNS.DeleteTXTRecord lib w1 m1 fqdn)
              (MultiServerDNS.DeleteTXTRecord lib w2 m2 fqdn).
Proof.
  unfold MultiServerDNS.DeleteTXTRecord.
  apply same_output_bind; [apply same_output_refl | intros _].
  rewrite wg_Wait_agree.
  apply same_output_bind; [|intro st; apply same_output_refl].
  apply run_secret. intros g st. unfold MultiServerDNS.delete_body.
  apply same_output_bind; [|intro r; apply same_output_refl].
  apply (client_DeleteTXTRecord_secret R); [exact secrets | apply agree].
Qed.

End SecretFanOut.

(** Whether the secret is found, and the error when it is not, are the same
    in both runs; when it is found, each run has its own. *)
Lemma getTSIGSecret_secret R s1 s2 namespace secretName key :
  solvers_agree R s1 s2 ->
  match returned (DNS01Solver.getTSIGSecret s1 namespace secretName key),
        returned (DNS01Solver.getTSIGSecret s2 namespace secretName key) with
  | Ok sec1, Ok sec2 => R sec1 sec2
  | Err e1, Err e2 => e1 = e2
  | _, _ => False
  end.
Proof.
  unfold solvers_agree, DNS01Solver.getTSIGSecret.
  destruct (DNS01Solver.client s1) as [k1|], (DNS01Solver.client s2) as [k2|];
    try contradiction; [|reflexivity].
  intro Hstores. specialize (Hstores namespace secretName).
  unfold bind, returned. cbn [fst snd].
  destruct (kubernetes.Secrets_Get k1 namespace secretName) as [secret1|e1],
           (kubernetes.Secrets_Get k2 namespace secretName) as [secret2|e2];
    try contradiction.
  - pose proof (lookup_same_keys _ key _ _ Hstores) as Hkey.
    destruct (lookup key (kubernetes.Data secret1)) as [data1|],
             (lookup key (kubernetes.Data secret2)) as [data2|];
      cbn [snd ret]; try contradiction.
    + exact Hkey.
    + reflexivity.
  - subst e2. reflexivity.
Qed.

(** C3, as stated, fails: the first entry [Present] logs holds the
    challenge key, and two runs that differ in nothing but the challenge
    key log different entries. *)
Lemma Present_logs_the_challenge_key :
  hd_error (logs (trace (DNS01Solver.Present
                           Sample.lib Sample.two_up (Sample.solver "c2VjcmV0")
                           (Sample.challenge Sample.fqdn "tokenA"
                                             Sample.three_servers))))
  = Some (zap.mkEntry zap.InfoLevel "Presenting DNS01 challenge"
                      [zap.String "fqdn" Sample.fqdn; zap.String "key" "tokenA";
                       zap.String "namespace" "istio-system"])
  /\ logs (trace (DNS01Solver.Present
                    Sample.lib Sample.two_up (Sample.solver "c2VjcmV0")
                    (Sample.challenge Sample.fqdn "tokenA" Sample.three_servers)))
     <> logs (trace (DNS01Solver.Present
                       Sample.lib Sample.two_up (Sample.solver "c2VjcmV0")
                       (Sample.challenge Sample.fqdn "tokenB" Sample.three_servers))).
Proof.
  split; [reflexivity|].
  intro H. apply (f_equal (@hd_error zap.Entry)) in H. discriminate H.
Qed.

(** C3, amended: the code gives the TSIG secret to the client of the
    library and to nothing else, so the secret can reach a log entry or a
    returned error only through what the library's [ExchangeContext]
    returns.  Two runs of [Present], or of [CleanUp], on the same challenge
    that differ only in the bytes of the secret, and in which
    [ExchangeContext] returns the same error, or a reply with the same
    RCODE, to clients that differ only in the secret, log the same entries
    and return the same error.  (Where the result of the library differs
    with the secret, the difference is logged and returned:
    [library_error_follows_the_secret].  The challenge key is logged: by
    [Present] and [CleanUp] on entry, and by the coordinator and the client
    on the add path.) *)
Theorem tsig_secret_is_not_in_the_output R lib w1 w2 s1 s2 ch :
  worlds_agree R w1 w2 ->
  solvers_agree R s1 s2 ->
  same_output (DNS01Solver.Present lib w1 s1 ch) (DNS01Solver.Present lib w2 s2 ch)
  /\ same_output (DNS01Solver.CleanUp lib w1 s1 ch) (DNS01Solver.CleanUp lib w2 s2 ch).
Proof.
  intros Hworlds Hsolvers. split.
  - unfold DNS01Solver.Present.
    apply same_output_bind; [apply same_output_refl | intros _].
    destruct (DNS01Solver.parseConfig lib (v1alpha1.Config ch)) as [config|e];
      [|apply same_output_refl].
    pose proof (getTSIGSecret_secret R s1 s2 (v1alpha1.ResourceNamespace ch)
                  (TSIGSecretName config) (TSIGSecretKey config) Hsolvers) as Hsec.
    unfold same_output. rewrite !trace_bind, !logs_app, !returned_bind.
    rewrite !getTSIGSecret_logs.
    destruct (returned (DNS01Solver.getTSIGSecret s1 _ _ _)) as [sec1|e1],
             (returned (DNS01Solver.getTSIGSecret s2 _ _ _)) as [sec2|e2];
      try contradiction.
    + apply (same_output_bind
               (MultiServerDNS.AddTXTRecord lib w1 _ _ _ _)
               (MultiServerDNS.AddTXTRecord lib w2 _ _ _ _)).
      * apply (coordinator_AddTXTRecord_secret R); assumption.
      * intro r. apply same_output_refl.
    + subst e2. split; reflexivity.
  - unfold DNS01Solver.CleanUp.
    apply same_output_bind; [apply same_output_refl | intros _].
    destruct (DNS01Solver.parseConfig lib (v1alpha1.Config ch)) as [config|e];
      [|apply same_output_refl].
    pose proof (getTSIGSecret_secret R s1 s2 (v1alpha1.ResourceNamespace ch)
                  (TSIGSecretName config) (TSIGSecretKey config) Hsolvers) as Hsec.
    unfold same_output. rewrite !trace_bind, !logs_app, !returned_bind.
    rewrite !getTSIGSecret_logs.
    destruct (returned (DNS01Solver.getTSIGSecret s1 _ _ _)) as [sec1|e1],
             (returned (DNS01Solver.getTSIGSecret s2 _ _ _)) as [sec2|e2];
      try contradiction.
    + apply (same_output_bind
               (MultiServerDNS.DeleteTXTRecord lib w1 _ _)
               (MultiServerDNS.DeleteTXTRecord lib w2 _ _)).
      * apply (coordinator_DeleteTXTRecord_secret R); assumption.
      * intro r. apply same_output_refl.
    + subst e2. split; reflexivity.
Qed.

Lemma all_keyed_agree :
  worlds_agree Sample.secrets (Sample.all_keyed "c2VjcmV0") (Sample.all_keyed "b3RoZXI=").
Proof.
  split; [reflexivity|]. intro i. repeat split.
  intros c1 c2 m a (_ & _ & Hkeys). cbn [Sample.all_keyed peer Sample.keyed exchange].
  pose proof (lookup_same_keys _ "acme-key." _ _ Hkeys) as Hkey.
  destruct (lookup "acme-key." (dns.TsigSecret c1)) as [sec1|],
           (lookup "acme-key." (dns.TsigSecret c2)) as [sec2|];
    try contradiction; [|reflexivity].
  destruct Hkey as [-> ->]. reflexivity.
Qed.

Lemma solver_agree :
  solvers_agree Sample.secrets (Sample.solver "c2VjcmV0") (Sample.solver "b3RoZXI=").
Proof.
  intros namespace name. cbn [Sample.secret_store kubernetes.Secrets_Get].
  destruct (String.eqb name "tsig"); [|reflexivity].
  repeat constructor.
Qed.

Lemma tsig_secret_is_not_in_the_output_witness :
  same_output
    (DNS01Solver.Present Sample.lib (Sample.all_keyed "c2VjcmV0")
                         (Sample.solver "c2VjcmV0")
                         (Sample.challenge Sample.fqdn "tokenA" Sample.qualified))
    (DNS01Solver.Present Sample.lib (Sample.all_keyed "b3RoZXI=")
                         (Sample.solver "b3RoZXI=")
                         (Sample.challenge Sample.fqdn "tokenA" Sample.qualified))
  /\ same_output
       (DNS01Solver.CleanUp Sample.lib (Sample.all_keyed "c2VjcmV0")
                            (Sample.solver "c2VjcmV0")
                            (Sample.challenge Sample.fqdn "tokenA" Sample.qualified))
       (DNS01Solver.CleanUp Sample.lib (Sample.all_keyed "b3RoZXI=")
                            (Sample.solver "b3RoZXI=")
                            (Sample.challenge Sample.fqdn "tokenA" Sample.qualified)).
Proof.
  apply (tsig_secret_is_not_in_the_output
           Sample.secrets Sample.lib
           (Sample.all_keyed "c2VjcmV0") (Sample.all_keyed "b3RoZXI=")
           (Sample.solver "c2VjcmV0") (Sample.solver "b3RoZXI=")
           (Sample.challenge Sample.fqdn "tokenA" Sample.qualified)).
  - exact all_keyed_agree.
  - exact solver_agree.
Defined.

(** Both runs of the witness succeed: each server answers NOERROR to the
    client that signs with the secret it holds. *)
Example keyed_runs_succeed :
  returned (DNS01Solver.Present Sample.lib (Sample.all_keyed "c2VjcmV0")
                                (Sample.solver "c2VjcmV0")
                                (Sample.challenge Sample.fqdn "tokenA"
                                                  Sample.qualified)) = None
  /\ returned (DNS01Solver.Present Sample.lib (Sample.all_keyed "b3RoZXI=")
                                   (Sample.solver "b3RoZXI=")
                                   (Sample.challenge Sample.fqdn "tokenA"
                                                     Sample.qualified)) = None.
Proof. split; reflexivity. Qed.

(** The condition of the theorem is needed.  With a library that decodes
    the secret before it writes, two secrets that are not base64 give two
    errors of [ExchangeContext], which tell where each secret goes wrong;
    the client logs and wraps them, so the two runs, alike in everything
    but the secret, return different errors and log different entries.
    Such a pair of runs does not meet [worlds_agree]. *)
Lemma library_error_follows_the_secret :
  returned (RFC2136Client.AddTXTRecord
              Sample.lib
              (RFC2136Client.NewRFC2136Client "10.0.0.1" "example.com" "acme-key."
                                              "hmac-sha256." "c2Vj!mV0")
              Sample.decoding Sample.fqdn "tokenA" 60)
  = Some (wrapError
            "failed to send DNS update to 10.0.0.1: illegal base64 data at input byte 4"
            (errorString "illegal base64 data at input byte 4"))
  /\ returned (RFC2136Client.AddTXTRecord
                 Sample.lib
                 (RFC2136Client.NewRFC2136Client "10.0.0.1" "example.com" "acme-key."
                                                 "hmac-sha256." "c2VjcmV!")
                 Sample.decoding Sample.fqdn "tokenA" 60)
     = Some (wrapError
               "failed to send DNS update to 10.0.0.1: illegal base64 data at input byte 7"
               (errorString "illegal base64 data at input byte 7"))
  /\ returned (DNS01Solver.Present Sample.lib Sample.all_decoding
                                   (Sample.solver "c2Vj!mV0")
                                   (Sample.challenge Sample.fqdn "tokenA"
                                                     Sample.qualified))
     <> returned (DNS01Solver.Present Sample.lib Sample.all_decoding
                                      (Sample.solver "c2VjcmV!")
                                      (Sample.challenge Sample.fqdn "tokenA"
                                                        Sample.qualified))
  /\ logs (trace (DNS01Solver.Present Sample.lib Sample.all_decoding
                                      (Sample.solver "c2Vj!mV0")
                                      (Sample.challenge Sample.fqdn "tokenA"
                                                        Sample.qualified)))
     <> logs (trace (DNS01Solver.Present Sample.lib Sample.all_decoding
                                         (Sample.solver "c2VjcmV!")
                                         (Sample.challenge Sample.fqdn "tokenA"
                                                           Sample.qualified)))
  /\ ~ worlds_agree Sample.bad_secrets Sample.all_decoding Sample.all_decoding.
Proof.
  split; [reflexivity|]. split; [reflexivity|]. split; [|split].
  - intro H. vm_compute in H. discriminate H.
  - intro H. apply (f_equal (fun l => nth_error l 3)) in H.
    vm_compute in H. discriminate H.
  - intros [_ Hpeers]. destruct (Hpeers O) as (_ & _ & Hanswer).
    specialize (Hanswer (dns.mkClient "" 0 [("acme-key.", "c2Vj!mV0")])
                        (dns.mkClient "" 0 [("acme-key.", "c2VjcmV!")])
                        dns.new_Msg "10.0.0.1:53").
    assert (Hsame : same_but_secret
                      Sample.bad_secrets
                      (dns.mkClient "" 0 [("acme-key.", "c2Vj!mV0")])
                      (dns.mkClient "" 0 [("acme-key.", "c2VjcmV!")])).
    { repeat split. repeat constructor. }
    specialize (Hanswer Hsame). vm_compute in Hanswer. discriminate Hanswer.
Qed.

(** * Further properties of the three layers *)

(** ** What the handler returns *)

Lemma Present_returned lib w s ch :
  returned (DNS01Solver.Present lib w s ch)
  = match DNS01Solver.parseConfig lib (v1alpha1.Config ch) with
    | Err err => Some (wrapError ("failed to parse config: " +++ Error err) err)
    | Ok config =>
        match returned (DNS01Solver.getTSIGSecret
                          s (v1alpha1.ResourceNamespace ch)
                          (TSIGSecretName config) (TSIGSecretKey config)) with
        | Err err =>
            Some (wrapError ("failed to get TSIG secret: " +++ Error err) err)
        | Ok tsigSecret =>
            match returned (MultiServerDNS.AddTXTRecord
                              lib w
                              (MultiServerDNS.NewMultiServerDNS
                                 (Servers config) (Zone config) (TSIGKeyName config)
                                 (TSIGAlgorithm config) tsigSecret)
                              (v1alpha1.ResolvedFQDN ch) (v1alpha1.Key ch)
                              (TTL config)) with
            | Some err =>
                Some (wrapError ("failed to add TXT record: " +++ Error err) err)
            | None => None
            end
        end
    end.
Proof.
  unfold DNS01Solver.Present. rewrite returned_bind.
  destruct (DNS01Solver.parseConfig lib (v1alpha1.Config ch)) as [config|err];
    [|reflexivity].
  rewrite returned_bind.
  destruct (returned (DNS01Solver.getTSIGSecret _ _ _ _)) as [tsigSecret|err];
    [|reflexivity].
  rewrite returned_bind.
  destruct (returned (MultiServerDNS.AddTXTRecord _ _ _ _ _ _)); reflexivity.
Qed.

Lemma CleanUp_returned lib w s ch :
  returned (DNS01Solver.CleanUp lib w s ch)
  = match DNS01Solver.parseConfig lib (v1alpha1.Config ch) with
    | Err err => Some (wrapError ("failed to parse config: " +++ Error err) err)
    | Ok config =>
        match returned (DNS01Solver.getTSIGSecret
                          s (v1alpha1.ResourceNamespace ch)
                          (TSIGSecretName config) (TSIGSecretKey config)) with
        | Err err =>
            Some (wrapError ("failed to get TSIG secret: " +++ Error err) err)
        | Ok tsigSecret =>
            match returned (MultiServerDNS.DeleteTXTRecord
                              lib w
                              (MultiServerDNS.NewMultiServerDNS
                                 (Servers config) (Zone config) (TSIGKeyName config)
                                 (TSIGAlgorithm config) tsigSecret)
                              (v1alpha1.ResolvedFQDN ch)) with
            | Some err =>
                Some (wrapError ("failed to delete TXT record: " +++ Error err) err)
            | None => None
            end
        end
    end.
Proof.
  unfold DNS01Solver.CleanUp. rewrite returned_bind.
  destruct (DNS01Solver.parseConfig lib (v1alpha1.Config ch)) as [config|err];
    [|reflexivity].
  rewrite returned_bind.
  destruct (returned (DNS01Solver.getTSIGSecret _ _ _ _)) as [tsigSecret|err];
    [|reflexivity].
  rewrite returned_bind.
  destruct (returned (MultiServerDNS.DeleteTXTRecord _ _ _ _)); reflexivity.
Qed.

Lemma NewMultiServerDNS_servers servers zone tsigKey tsigAlg tsigSec :
  MultiServerDNS.servers
    (MultiServerDNS.NewMultiServerDNS servers zone tsigKey tsigAlg tsigSec)
  = servers.
Proof. reflexivity. Qed.

(** X1: [Present] returns nil exactly when three things hold together: the
    configuration is accepted, the secret is read, and the single-server
    add succeeds on a strict majority of the configured servers. *)
Theorem Present_succeeds_iff lib w s ch :
  returned (DNS01Solver.Present lib w s ch) = None
  <-> exists config tsigSecret,
      DNS01Solver.parseConfig lib (v1alpha1.Config ch) = Ok config
      /\ returned (DNS01Solver.getTSIGSecret
                     s (v1alpha1.ResourceNamespace ch)
                     (TSIGSecretName config) (TSIGSecretKey config))
         = Ok tsigSecret
      /\ Z.of_nat (List.length (Servers config)) / 2 + 1
         <= successes
              (add_result lib w
                 (MultiServerDNS.NewMultiServerDNS
                    (Servers config) (Zone config) (TSIGKeyName config)
                    (TSIGAlgorithm config) tsigSecret)
                 (v1alpha1.ResolvedFQDN ch) (v1alpha1.Key ch) (TTL config))
              (indexed (Servers config)).
Proof.
  rewrite Present_returned. split.
  - destruct (DNS01Solver.parseConfig lib (v1alpha1.Config ch)) as [config|err];
      [|discriminate].
    destruct (returned (DNS01Solver.getTSIGSecret _ _ _ _)) as [tsigSecret|err]
      eqn:Hsec; [|discriminate].
    rewrite coordinator_AddTXTRecord_returned. cbv zeta.
    rewrite minSuccess_majority.
    rewrite !NewMultiServerDNS_servers.
    intro H. exists config, tsigSecret.
    split; [reflexivity|]. split; [exact Hsec|].
    set (n := successes _ _) in *.
    destruct (Z.ltb_spec n (Z.of_nat (List.length (Servers config)) / 2 + 1));
      [discriminate | assumption].
  - intros (config & tsigSecret & -> & -> & Hle).
    rewrite coordinator_AddTXTRecord_returned. cbv zeta.
    rewrite minSuccess_majority.
    rewrite !NewMultiServerDNS_servers.
    set (n := successes _ _) in *.
    destruct (Z.ltb_spec n (Z.of_nat (List.length (Servers config)) / 2 + 1));
      [lia | reflexivity].
Qed.

(** X2: [CleanUp] returns nil exactly when the configuration is accepted,
    the secret is read, and the single-server delete succeeds on at least
    one configured server. *)
Theorem CleanUp_succeeds_iff lib w s ch :
  returned (DNS01Solver.CleanUp lib w s ch) = None
  <-> exists config tsigSecret,
      DNS01Solver.parseConfig lib (v1alpha1.Config ch) = Ok config
      /\ returned (DNS01Solver.getTSIGSecret
                     s (v1alpha1.ResourceNamespace ch)
                     (TSIGSecretName config) (TSIGSecretKey config))
         = Ok tsigSecret
      /\ 1 <= successes
                (delete_result lib w
                   (MultiServerDNS.NewMultiServerDNS
                      (Servers config) (Zone config) (TSIGKeyName config)
                      (TSIGAlgorithm config) tsigSecret)
                   (v1alpha1.ResolvedFQDN ch))
                (indexed (Servers config)).
Proof.
  rewrite CleanUp_returned. split.
  - destruct (DNS01Solver.parseConfig lib (v1alpha1.Config ch)) as [config|err];
      [|discriminate].
    destruct (returned (DNS01Solver.getTSIGSecret _ _ _ _)) as [tsigSecret|err]
      eqn:Hsec; [|discriminate].
    rewrite coordinator_DeleteTXTRecord_returned. cbv zeta.
    rewrite !NewMultiServerDNS_servers.
    intro H. exists config, tsigSecret.
    split; [reflexivity|]. split; [exact Hsec|].
    pose proof (successes_bounds
                  (delete_result lib w
                     (MultiServerDNS.NewMultiServerDNS
                        (Servers config) (Zone config) (TSIGKeyName config)
                        (TSIGAlgorithm config) tsigSecret)
                     (v1alpha1.ResolvedFQDN ch))
                  (indexed (Servers config))) as Hb.
    set (n := successes _ _) in *.
    destruct (Z.eqb_spec n 0); [discriminate | lia].
  - intros (config & tsigSecret & -> & -> & Hle).
    rewrite coordinator_DeleteTXTRecord_returned. cbv zeta.
    rewrite !NewMultiServerDNS_servers.
    set (n := successes _ _) in *.
    destruct (Z.eqb_spec n 0); [lia | reflexivity].
Qed.

(** ** Reading the secret *)

Lemma client_AddTXTRecord_secret_reads lib c p fqdn value ttl :
  secret_reads (trace (RFC2136Client.AddTXTRecord lib c p fqdn value ttl)) = [].
Proof.
  unfold RFC2136Client.AddTXTRecord, ExchangeContext, bind, trace.
  cbn [fst snd].
  destruct (exchange p _ _ _) as [reply|err];
    [destruct (negb (dns.Rcode reply =? dns.RcodeSuccess))|]; reflexivity.
Qed.

Lemma client_DeleteTXTRecord_secret_reads lib c p fqdn :
  secret_reads (trace (RFC2136Client.DeleteTXTRecord lib c p fqdn)) = [].
Proof.
  unfold RFC2136Client.DeleteTXTRecord, ExchangeContext, bind, trace.
  cbn [fst snd].
  destruct (exchange p _ _ _) as [reply|err];
    [destruct (negb (dns.Rcode reply =? dns.RcodeSuccess))|]; reflexivity.
Qed.

Lemma run_secret_reads body :
  (forall g st, secret_reads (trace (body g st)) = []) ->
  forall l st, secret_reads (trace (MultiServerDNS.run body l st)) = [].
Proof.
  intro Hbody. induction l as [|g l IH]; intro st; simpl MultiServerDNS.run.
  - reflexivity.
  - rewrite trace_bind, secret_reads_app, Hbody, IH. reflexivity.
Qed.

Lemma coordinator_AddTXTRecord_secret_reads lib w m fqdn value ttl :
  secret_reads (trace (MultiServerDNS.AddTXTRecord lib w m fqdn value ttl)) = [].
Proof.
  unfold MultiServerDNS.AddTXTRecord.
  rewrite trace_bind, secret_reads_app, trace_bind, secret_reads_app.
  rewrite run_secret_reads.
  - cbn [Info trace fst secret_reads flat_map app].
    generalize (returned (MultiServerDNS.run
                            (MultiServerDNS.add_body lib w m fqdn value ttl)
                            (wg_Wait w (indexed (MultiServerDNS.servers m)))
                            (0, []))).
    intro st.
    repeat match goal with
           | |- context [if ?b then _ else _] => destruct b
           end; reflexivity.
  - intros g st. unfold MultiServerDNS.add_body.
    rewrite trace_bind, secret_reads_app, client_AddTXTRecord_secret_reads.
    destruct (returned (RFC2136Client.AddTXTRecord _ _ _ _ _ _)); reflexivity.
Qed.

Lemma coordinator_DeleteTXTRecord_secret_reads lib w m fqdn :
  secret_reads (trace (MultiServerDNS.DeleteTXTRecord lib w m fqdn)) = [].
Proof.
  unfold MultiServerDNS.DeleteTXTRecord.
  rewrite trace_bind, secret_reads_app, trace_bind, secret_reads_app.
  rewrite run_secret_reads.
  - cbn [Info trace fst secret_reads flat_map app].
    generalize (returned (MultiServerDNS.run
                            (MultiServerDNS.delete_body lib w m fqdn)
                            (wg_Wait w (indexed (MultiServerDNS.servers m)))
                            (0, []))).
    intro st.
    repeat match goal with
           | |- context [if ?b then _ else _] => destruct b
           end; reflexivity.
  - intros g st. unfold MultiServerDNS.delete_body.
    rewrite trace_bind, secret_reads_app, client_DeleteTXTRecord_secret_reads.
    destruct (returned (RFC2136Client.DeleteTXTRecord _ _ _ _)); reflexivity.
Qed.

Lemma getTSIGSecret_secret_reads s namespace secretName key :
  secret_reads (trace (DNS01Solver.getTSIGSecret s namespace secretName key))
  = match DNS01Solver.client s with
    | Some _ => [(namespace, secretName)]
    | None => []
    end.
Proof.
  unfold DNS01Solver.getTSIGSecret.
  destruct (DNS01Solver.client s) as [cl|]; [|reflexivity].
  unfold bind, trace. cbn [fst snd].
  destruct (kubernetes.Secrets_Get cl namespace secretName) as [secret|err];
    [|reflexivity].
  destruct (lookup key (kubernetes.Data secret)); reflexivity.
Qed.

(** X3: [Present] and [CleanUp] read the secret store at most once: not at
    all when the configuration is rejected or the solver has no client, and
    otherwise exactly the secret that the configuration names, in the
    namespace of the challenge; the coordinator and the clients never read
    it. *)
Theorem handler_reads_the_configured_secret_once lib w s ch :
  let reads :=
    match DNS01Solver.parseConfig lib (v1alpha1.Config ch), DNS01Solver.client s with
    | Ok config, Some _ => [(v1alpha1.ResourceNamespace ch, TSIGSecretName config)]
    | _, _ => []
    end in
  secret_reads (trace (DNS01Solver.Present lib w s ch)) = reads
  /\ secret_reads (trace (DNS01Solver.CleanUp lib w s ch)) = reads.
Proof.
  cbv zeta. unfold DNS01Solver.Present, DNS01Solver.CleanUp.
  rewrite !trace_bind, !secret_reads_app.
  destruct (DNS01Solver.parseConfig lib (v1alpha1.Config ch)) as [config|err].
  - rewrite !trace_bind, !secret_reads_app, !getTSIGSecret_secret_reads.
    destruct (returned (DNS01Solver.getTSIGSecret _ _ _ _)) as [tsigSecret|err].
    + rewrite !trace_bind, !secret_reads_app.
      rewrite coordinator_AddTXTRecord_secret_reads,
        coordinator_DeleteTXTRecord_secret_reads.
      destruct (returned (MultiServerDNS.AddTXTRecord _ _ _ _ _ _)),
               (returned (MultiServerDNS.DeleteTXTRecord _ _ _ _)),
               (DNS01Solver.client s); split; reflexivity.
    + destruct (DNS01Solver.client s); split; reflexivity.
  - destruct (DNS01Solver.client s); split; reflexivity.
Qed.

(** X4: [getTSIGSecret] returns a secret exactly when the solver has a
    client, the store has the named secret and the secret has the key; the
    secret it returns is the bytes stored under the key, as they are.  A
    missing key and a failing read give different errors: the first names
    the key, the second wraps the error of the store. *)
Theorem getTSIGSecret_returns_the_stored_bytes s namespace secretName key :
  (forall tsigSecret,
      returned (DNS01Solver.getTSIGSecret s namespace secretName key) = Ok tsigSecret
      <-> exists cl secret secretData,
          DNS01Solver.client s = Some cl
          /\ kubernetes.Secrets_Get cl namespace secretName = Ok secret
          /\ lookup key (kubernetes.Data secret) = Some secretData
          /\ tsigSecret = string_of_list_byte secretData)
  /\ (forall cl secret,
         DNS01Solver.client s = Some cl ->
         kubernetes.Secrets_Get cl namespace secretName = Ok secret ->
         lookup key (kubernetes.Data secret) = None ->
         returned (DNS01Solver.getTSIGSecret s namespace secretName key)
         = Err (errorString ("key " +++ key +++ " not found in secret "
                             +++ namespace +++ "/" +++ secretName)))
  /\ (forall cl err,
         DNS01Solver.client s = Some cl ->
         kubernetes.Secrets_Get cl namespace secretName = Err err ->
         returned (DNS01Solver.getTSIGSecret s namespace secretName key)
         = Err (wrapError ("failed to get secret " +++ namespace +++ "/"
                           +++ secretName +++ ": " +++ Error err) err)).
Proof.
  unfold DNS01Solver.getTSIGSecret.
  destruct (DNS01Solver.client s) as [cl|].
  - unfold bind, returned. cbn [fst snd].
    destruct (kubernetes.Secrets_Get cl namespace secretName) as [secret|err]
      eqn:Hget.
    + destruct (lookup key (kubernetes.Data secret)) as [secretData|] eqn:Hkey;
        cbn [ret snd].
      * repeat split.
        -- intro H. exists cl, secret, secretData. repeat split; congruence.
        -- intros (cl' & secret' & data' & Hcl & Hget' & Hkey' & ->).
           congruence.
        -- intros cl' secret' Hcl Hget' Hkey'. congruence.
        -- intros cl' err Hcl Hget'. congruence.
      * repeat split.
        -- discriminate.
        -- intros (cl' & secret' & data' & Hcl & Hget' & Hkey' & ->).
           congruence.
        -- intros cl' err Hcl Hget'. congruence.
    + cbn [ret snd]. repeat split.
      * discriminate.
      * intros (cl' & secret' & data' & Hcl & Hget' & _). congruence.
      * intros cl' secret' Hcl Hget'. congruence.
      * intros cl' err' Hcl Hget'. congruence.
  - cbn [ret returned snd]. repeat split; try discriminate.
    intros (cl' & _ & _ & Hcl & _). discriminate.
Qed.

Lemma getTSIGSecret_returns_the_stored_bytes_witness :
  returned (DNS01Solver.getTSIGSecret (Sample.solver "c2VjcmV0")
                                      "istio-system" "tsig" "secret")
  = Ok "c2VjcmV0"
  /\ returned (DNS01Solver.getTSIGSecret (Sample.solver "c2VjcmV0")
                                         "istio-system" "tsig" "password")
     = Err (errorString "key password not found in secret istio-system/tsig")
  /\ returned (DNS01Solver.getTSIGSecret (Sample.solver "c2VjcmV0")
                                         "istio-system" "other" "secret")
     = Err (wrapError "failed to get secret istio-system/other: secrets other not found"
                      (errorString "secrets other not found")).
Proof.
  pose proof (getTSIGSecret_returns_the_stored_bytes) as H.
  split; [|split].
  - apply (proj1 (H (Sample.solver "c2VjcmV0") "istio-system" "tsig" "secret")).
    exists (Sample.secret_store "c2VjcmV0"),
      (kubernetes.mkSecret [("secret", list_byte_of_string "c2VjcmV0")]),
      (list_byte_of_string "c2VjcmV0").
    repeat split.
  - apply (proj1 (proj2 (H (Sample.solver "c2VjcmV0") "istio-system" "tsig"
                           "password"))
                 (Sample.secret_store "c2VjcmV0")
                 (kubernetes.mkSecret [("secret", list_byte_of_string "c2VjcmV0")]));
      reflexivity.
  - apply (proj2 (proj2 (H (Sample.solver "c2VjcmV0") "istio-system" "other"
                           "secret"))
                 (Sample.secret_store "c2VjcmV0")
                 (errorString "secrets other not found"));
      reflexivity.
Defined.

(** ** Before and after [Initialize] *)

(** X5: a solver that [NewDNS01Solver] has built, and one on which
    [Initialize] has failed (the error of the client library comes back
    wrapped and the solver is as it was), reads no secret and reaches no
    server: [Present] and [CleanUp] fail on it whatever the challenge is.
    After an [Initialize] that succeeds the solver holds the client, and
    the function registered by [StartWebhookServer] hands over a solver
    only in that case. *)
Theorem solver_is_offline_until_initialized lib w ch err cl :
  let s0 := DNS01Solver.NewDNS01Solver in
  DNS01Solver.Initialize (Err err) s0
  = (s0, Some (wrapError ("failed to create kubernetes client: " +++ Error err) err))
  /\ DNS01Solver.StartWebhookServer_hook (Err err) s0
     = Err (wrapError ("failed to create kubernetes client: " +++ Error err) err)
  /\ returned (DNS01Solver.Present lib w s0 ch) <> None
  /\ returned (DNS01Solver.CleanUp lib w s0 ch) <> None
  /\ secret_reads (trace (DNS01Solver.Present lib w s0 ch)) = []
  /\ secret_reads (trace (DNS01Solver.CleanUp lib w s0 ch)) = []
  /\ exchanges (trace (DNS01Solver.Present lib w s0 ch)) = []
  /\ exchanges (trace (DNS01Solver.CleanUp lib w s0 ch)) = []
  /\ DNS01Solver.Initialize (Ok cl) s0 = (DNS01Solver.mk (Some cl), None)
  /\ DNS01Solver.StartWebhookServer_hook (Ok cl) s0 = Ok (DNS01Solver.mk (Some cl)).
Proof.
  intro s0.
  split; [reflexivity|]. split; [reflexivity|].
  rewrite Present_returned, CleanUp_returned.
  unfold DNS01Solver.Present, DNS01Solver.CleanUp.
  rewrite !trace_bind, !secret_reads_app, !exchanges_app.
  destruct (DNS01Solver.parseConfig lib (v1alpha1.Config ch)) as [config|e];
    repeat split; try reflexivity; discriminate.
Qed.

(** ** What an accepted configuration is *)

(** X6: whatever the decoder of the library does, a configuration that
    [parseConfig] returns has at least one server and a zone, a key name
    and a secret name that are not empty, and it comes from a document
    that is not empty; so the coordinator that [Present] and [CleanUp]
    build never has an empty list of servers. *)
Theorem accepted_config_has_its_required_fields lib cfgJSON config :
  DNS01Solver.parseConfig lib cfgJSON = Ok config ->
  Servers config <> []
  /\ Zone config <> ""
  /\ TSIGKeyName config <> ""
  /\ TSIGSecretName config <> ""
  /\ exists cfg, cfgJSON = Some cfg /\ acmev1.Raw cfg <> [].
Proof.
  unfold DNS01Solver.parseConfig.
  destruct cfgJSON as [cfg|]; [|discriminate].
  destruct (acmev1.Raw cfg) as [|b raw] eqn:Hraw; [discriminate|].
  change (Z.of_nat (List.length (b :: raw)) =? 0) with false. cbv iota.
  destruct (json_Unmarshal lib (b :: raw) _) as [c|e]; [|discriminate].
  destruct (Servers c) as [|srv servers] eqn:Hservers; [discriminate|].
  change (Z.of_nat (List.length (srv :: servers)) =? 0) with false. cbv iota.
  destruct (String.eqb_spec (Zone c) ""); [discriminate|].
  destruct (String.eqb_spec (TSIGKeyName c) ""); [discriminate|].
  destruct (String.eqb_spec (TSIGSecretName c) ""); [discriminate|].
  intro H. apply (f_equal (fun r => match r with Ok x => x | Err _ => c end)) in H.
  subst config. rewrite Hservers. repeat split; try assumption.
  - discriminate.
  - exists cfg. split; [reflexivity|]. rewrite Hraw. discriminate.
Qed.

Lemma accepted_config_has_its_required_fields_witness :
  ["10.0.0.1"; "10.0.0.2"; "10.0.0.3"] <> [] /\ "example.com" <> "".
Proof.
  destruct (accepted_config_has_its_required_fields
              Sample.lib (Some (acmev1.mkACMESolverConfig Sample.three_servers))
              (mkConfig ["10.0.0.1"; "10.0.0.2"; "10.0.0.3"] "example.com"
                        "acme-key" "hmac-sha256" "tsig" "secret" 60)
              eq_refl) as (H1 & H2 & _).
  exact (conj H1 H2).
Defined.

(** ** What goes out to the servers *)

(** X7: the secret that [Present] and [CleanUp] hand to the library, for
    every server, is the bytes found in the store under the configured
    key, unchanged (nothing is decoded or trimmed), under the configured
    key name; the client has the 10 s timeout and the default
    transport. *)
Theorem stored_secret_is_handed_to_every_exchange
    lib w s ch config cl secret secretData :
  DNS01Solver.parseConfig lib (v1alpha1.Config ch) = Ok config ->
  DNS01Solver.client s = Some cl ->
  kubernetes.Secrets_Get cl (v1alpha1.ResourceNamespace ch) (TSIGSecretName config)
  = Ok secret ->
  lookup (TSIGSecretKey config) (kubernetes.Data secret) = Some secretData ->
  let client :=
    dns.mkClient "" (10 * 1000000000)
                 [(TSIGKeyName config, string_of_list_byte secretData)] in
  Forall (fun x => fst (fst x) = client)
         (exchanges (trace (DNS01Solver.Present lib w s ch)))
  /\ Forall (fun x => fst (fst x) = client)
            (exchanges (trace (DNS01Solver.CleanUp lib w s ch))).
Proof.
  intros Hcfg Hcl Hget Hkey client.
  assert (Hsec : returned (DNS01Solver.getTSIGSecret
                             s (v1alpha1.ResourceNamespace ch)
                             (TSIGSecretName config) (TSIGSecretKey config))
                 = Ok (string_of_list_byte secretData)).
  { unfold DNS01Solver.getTSIGSecret. rewrite Hcl.
    unfold bind, returned. cbn [fst snd]. rewrite Hget, Hkey. reflexivity. }
  rewrite (Present_exchanges lib w s ch config Hcfg _ Hsec).
  rewrite (CleanUp_exchanges lib w s ch config Hcfg _ Hsec).
  split; apply Forall_map, Forall_forall; intros g _; reflexivity.
Qed.

Lemma stored_secret_is_handed_to_every_exchange_witness :
  Forall (fun x => fst (fst x)
                   = dns.mkClient "" 10000000000 [("acme-key", "c2VjcmV0")])
         (exchanges
            (trace (DNS01Solver.Present
                      Sample.lib Sample.two_up (Sample.solver "c2VjcmV0")
                      (Sample.challenge Sample.fqdn "tokenA" Sample.three_servers)))).
Proof.
  exact (proj1 (stored_secret_is_handed_to_every_exchange
                  Sample.lib Sample.two_up (Sample.solver "c2VjcmV0")
                  (Sample.challenge Sample.fqdn "tokenA" Sample.three_servers)
                  (mkConfig ["10.0.0.1"; "10.0.0.2"; "10.0.0.3"] "example.com"
                            "acme-key" "hmac-sha256" "tsig" "secret" 60)
                  (Sample.secret_store "c2VjcmV0")
                  (kubernetes.mkSecret [("secret", list_byte_of_string "c2VjcmV0")])
                  (list_byte_of_string "c2VjcmV0")
                  eq_refl eq_refl eq_refl eq_refl)).
Defined.

(** X8: every message that [Present] and [CleanUp] send is an UPDATE query
    for the configured zone (one SOA question, class IN, in fully
    qualified form), with an empty prerequisite section, one record in the
    Update section, and one TSIG record in the Additional section: named
    by tsigKeyName and carrying tsigAlgorithm as the configuration gives
    them, with fudge 300 and the id of the message as original id. *)
Theorem every_update_is_signed_for_the_zone lib w s ch config tsigSecret :
  DNS01Solver.parseConfig lib (v1alpha1.Config ch) = Ok config ->
  returned (DNS01Solver.getTSIGSecret s (v1alpha1.ResourceNamespace ch)
              (TSIGSecretName config) (TSIGSecretKey config)) = Ok tsigSecret ->
  Forall (fun x => signed_update config (snd (fst x)))
         (exchanges (trace (DNS01Solver.Present lib w s ch)))
  /\ Forall (fun x => signed_update config (snd (fst x)))
            (exchanges (trace (DNS01Solver.CleanUp lib w s ch))).
Proof.
  intros Hcfg Hsec.
  rewrite (Present_exchanges lib w s ch config Hcfg _ Hsec).
  rewrite (CleanUp_exchanges lib w s ch config Hcfg _ Hsec).
  split; apply Forall_map, Forall_forall; intros g _;
    (repeat split; try reflexivity;
     eexists; split; [apply Z.mod_pos_bound; lia | reflexivity]).
Qed.

Lemma every_update_is_signed_for_the_zone_witness :
  Forall (fun x =>
            signed_update
              (mkConfig ["10.0.0.1"; "10.0.0.2"; "10.0.0.3"] "example.com"
                        "acme-key" "hmac-sha256" "tsig" "secret" 60)
              (snd (fst x)))
         (exchanges
            (trace (DNS01Solver.CleanUp
                      Sample.lib Sample.one_up (Sample.solver "c2VjcmV0")
                      (Sample.challenge Sample.fqdn "tokenA" Sample.three_servers)))).
Proof.
  exact (proj2 (every_update_is_signed_for_the_zone
                  Sample.lib Sample.one_up (Sample.solver "c2VjcmV0")
                  (Sample.challenge Sample.fqdn "tokenA" Sample.three_servers)
                  (mkConfig ["10.0.0.1"; "10.0.0.2"; "10.0.0.3"] "example.com"
                            "acme-key" "hmac-sha256" "tsig" "secret" 60)
                  "c2VjcmV0" eq_refl eq_refl)).
Defined.

(** X9: a ttl from 0 to 2^32 - 1 goes out as it is: once the configuration
    is accepted and the secret is read, the record that [Present] sends to
    every server is the TXT record of class IN for the name of the
    challenge, with the configured ttl and the challenge key as its one
    string. *)
Theorem ttl_in_range_is_sent_unchanged lib w s ch config tsigSecret :
  DNS01Solver.parseConfig lib (v1alpha1.Config ch) = Ok config ->
  returned (DNS01Solver.getTSIGSecret s (v1alpha1.ResourceNamespace ch)
              (TSIGSecretName config) (TSIGSecretKey config)) = Ok tsigSecret ->
  0 <= TTL config < 2 ^ 32 ->
  Forall (fun x =>
            dns.Ns (snd (fst x))
            = [dns.mkRR (dns.mkHeader (dns.Fqdn (v1alpha1.ResolvedFQDN ch))
                                      dns.TypeTXT dns.ClassINET (TTL config) 0)
                        (dns.TXT [v1alpha1.Key ch])])
         (exchanges (trace (DNS01Solver.Present lib w s ch))).
Proof.
  intros Hcfg Hsec Hrange.
  rewrite (Present_exchanges lib w s ch config Hcfg _ Hsec).
  apply Forall_map, Forall_forall. intros g _.
  cbn [add_call fst snd]. rewrite add_msg_Ns, Z.mod_small by exact Hrange.
  reflexivity.
Qed.

Lemma ttl_in_range_is_sent_unchanged_witness :
  Forall (fun x =>
            dns.Ns (snd (fst x))
            = [dns.mkRR (dns.mkHeader Sample.fqdn dns.TypeTXT dns.ClassINET 60 0)
                        (dns.TXT ["tokenA"])])
         (exchanges
            (trace (DNS01Solver.Present
                      Sample.lib Sample.two_up (Sample.solver "c2VjcmV0")
                      (Sample.challenge Sample.fqdn "tokenA" Sample.three_servers)))).
Proof.
  apply (ttl_in_range_is_sent_unchanged
           Sample.lib Sample.two_up (Sample.solver "c2VjcmV0")
           (Sample.challenge Sample.fqdn "tokenA" Sample.three_servers)
           (mkConfig ["10.0.0.1"; "10.0.0.2"; "10.0.0.3"] "example.com"
                     "acme-key" "hmac-sha256" "tsig" "secret" 60)
           "c2VjcmV0" eq_refl eq_refl).
  cbn [TTL]. lia.
Defined.

(** ** What the caller can read in a failure *)

(** X10: when the fan-out fails, the error that [Present] or [CleanUp]
    returns wraps the aggregate error of the coordinator under its own
    text; the aggregate error wraps nothing (the errors of the servers are
    in its message only); and the message of the returned error holds, for
    every server whose call failed, that server with the error of its
    call. *)
Theorem handler_error_names_every_failing_server lib w s ch config tsigSecret :
  DNS01Solver.parseConfig lib (v1alpha1.Config ch) = Ok config ->
  returned (DNS01Solver.getTSIGSecret s (v1alpha1.ResourceNamespace ch)
              (TSIGSecretName config) (TSIGSecretKey config)) = Ok tsigSecret ->
  let m := MultiServerDNS.NewMultiServerDNS
             (Servers config) (Zone config) (TSIGKeyName config)
             (TSIGAlgorithm config) tsigSecret in
  let fqdn := v1alpha1.ResolvedFQDN ch in
  (forall e,
      returned (DNS01Solver.Present lib w s ch) = Some e ->
      (exists aggregate,
          e = wrapError ("failed to add TXT record: " +++ Error aggregate) aggregate
          /\ Unwrap aggregate = None)
      /\ forall g cause,
          In g (indexed (Servers config)) ->
          add_result lib w m fqdn (v1alpha1.Key ch) (TTL config) g = Some cause ->
          Contains (Error e) ("server " +++ snd g +++ ": " +++ Error cause))
  /\ (forall e,
         returned (DNS01Solver.CleanUp lib w s ch) = Some e ->
         (exists aggregate,
             e = wrapError ("failed to delete TXT record: " +++ Error aggregate)
                           aggregate
             /\ Unwrap aggregate = None)
         /\ forall g cause,
             In g (indexed (Servers config)) ->
             delete_result lib w m fqdn g = Some cause ->
             Contains (Error e) ("server " +++ snd g +++ ": " +++ Error cause)).
Proof.
  intros Hcfg Hsec m fqdn. split.
  - intros e He. rewrite Present_returned, Hcfg, Hsec in He. fold m fqdn in He.
    rewrite coordinator_AddTXTRecord_returned in He. cbv zeta in He.
    destruct (_ <? _) in He; [|discriminate].
    apply Some_inj in He. subst e. split.
    + eexists. split; reflexivity.
    + intros g cause Hin Hres. unfold Error at 1.
      apply Contains_append_l. unfold Error at 1.
      do 7 apply Contains_append_l.
      apply (Contains_v_errors _ (server_error (snd g) cause)).
      apply In_failures; [|exact Hres].
      apply Permutation_in with (l := indexed (MultiServerDNS.servers m));
        [apply Permutation_sym, wg_Wait_Permutation | exact Hin].
  - intros e He. rewrite CleanUp_returned, Hcfg, Hsec in He. fold m fqdn in He.
    rewrite coordinator_DeleteTXTRecord_returned in He. cbv zeta in He.
    destruct (_ =? _) in He; [|discriminate].
    apply Some_inj in He. subst e. split.
    + eexists. split; reflexivity.
    + intros g cause Hin Hres. unfold Error at 1.
      apply Contains_append_l. unfold Error at 1.
      apply Contains_append_l.
      apply (Contains_v_errors _ (server_error (snd g) cause)).
      apply In_failures; [|exact Hres].
      apply Permutation_in with (l := indexed (MultiServerDNS.servers m));
        [apply Permutation_sym, wg_Wait_Permutation | exact Hin].
Qed.

Lemma handler_error_names_every_failing_server_witness :
  Contains
    (Error (wrapError
              ("failed to add TXT record: "
               +++ "only 1/3 servers updated successfully (minimum 2 required): "
               +++ "[server 10.0.0.3: DNS update failed: REFUSED (rcode: 5) "
               +++ "server 10.0.0.2: DNS update failed: REFUSED (rcode: 5)]")
              (errorString
                 ("only 1/3 servers updated successfully (minimum 2 required): "
                  +++ "[server 10.0.0.3: DNS update failed: REFUSED (rcode: 5) "
                  +++ "server 10.0.0.2: DNS update failed: REFUSED (rcode: 5)]"))))
    "server 10.0.0.3: DNS update failed: REFUSED (rcode: 5)".
Proof.
  exact (proj2 (proj1 (handler_error_names_every_failing_server
                         Sample.lib Sample.one_up (Sample.solver "c2VjcmV0")
                         (Sample.challenge Sample.fqdn "tokenA" Sample.three_servers)
                         (mkConfig ["10.0.0.1"; "10.0.0.2"; "10.0.0.3"] "example.com"
                                   "acme-key" "hmac-sha256" "tsig" "secret" 60)
                         "c2VjcmV0" eq_refl eq_refl)
                      _ eq_refl)
               (2%nat, "10.0.0.3")
               (errorString "DNS update failed: REFUSED (rcode: 5)")
               (or_intror (or_intror (or_introl eq_refl))) eq_refl).
Defined.

(** ** What is logged for each server *)

Lemma run_logs_In body (entry : nat * string -> zap.Entry) :
  (forall g st, In (entry g) (logs (trace (body g st)))) ->
  forall l st g, In g l -> In (entry g) (logs (trace (MultiServerDNS.run body l st))).
Proof.
  intro Hbody. induction l as [|g' l IH]; intros st g Hin; [contradiction|].
  simpl MultiServerDNS.run. rewrite trace_bind, logs_app. apply in_or_app.
  destruct Hin as [<-|Hin]; [left; apply Hbody | right; now apply IH].
Qed.

(** X11: every attempt is logged by the coordinator, whatever the final
    outcome: for each configured server there is an Error entry with the
    server, the name and the error of its call when the call failed, and
    an Info entry with the server and the name when it succeeded. *)
Theorem coordinator_logs_every_attempt lib w m fqdn value ttl :
  (forall g,
      In g (indexed (MultiServerDNS.servers m)) ->
      In (match add_result lib w m fqdn value ttl g with
          | Some err =>
              zap.mkEntry zap.ErrorLevel "Failed to add TXT record on server"
                          [zap.String "server" (snd g); zap.String "fqdn" fqdn;
                           zap.Error err]
          | None =>
              zap.mkEntry zap.InfoLevel "Successfully added TXT record on server"
                          [zap.String "server" (snd g); zap.String "fqdn" fqdn]
          end)
         (logs (trace (MultiServerDNS.AddTXTRecord lib w m fqdn value ttl))))
  /\ (forall g,
         In g (indexed (MultiServerDNS.servers m)) ->
         In (match delete_result lib w m fqdn g with
             | Some err =>
                 zap.mkEntry zap.ErrorLevel "Failed to delete TXT record on server"
                             [zap.String "server" (snd g); zap.String "fqdn" fqdn;
                              zap.Error err]
             | None =>
                 zap.mkEntry zap.InfoLevel
                             "Successfully deleted TXT record on server"
                             [zap.String "server" (snd g); zap.String "fqdn" fqdn]
             end)
            (logs (trace (MultiServerDNS.DeleteTXTRecord lib w m fqdn)))).
Proof.
  split; intros g Hin.
  - unfold MultiServerDNS.AddTXTRecord.
    rewrite trace_bind, logs_app, trace_bind, logs_app.
    apply in_or_app. right. apply in_or_app. left.
    apply (run_logs_In
             _ (fun g =>
                  match add_result lib w m fqdn value ttl g with
                  | Some err =>
                      zap.mkEntry zap.ErrorLevel "Failed to add TXT record on server"
                                  [zap.String "server" (snd g);
                                   zap.String "fqdn" fqdn; zap.Error err]
                  | None =>
                      zap.mkEntry zap.InfoLevel
                                  "Successfully added TXT record on server"
                                  [zap.String "server" (snd g);
                                   zap.String "fqdn" fqdn]
                  end)).
    + intros g' st. unfold MultiServerDNS.add_body, add_result.
      rewrite trace_bind, logs_app. apply in_or_app. right.
      destruct (returned (RFC2136Client.AddTXTRecord _ _ _ _ _ _));
        left; reflexivity.
    + apply Permutation_in with (l := indexed (MultiServerDNS.servers m));
        [apply Permutation_sym, wg_Wait_Permutation | exact Hin].
  - unfold MultiServerDNS.DeleteTXTRecord.
    rewrite trace_bind, logs_app, trace_bind, logs_app.
    apply in_or_app. right. apply in_or_app. left.
    apply (run_logs_In
             _ (fun g =>
                  match delete_result lib w m fqdn g with
                  | Some err =>
                      zap.mkEntry zap.ErrorLevel
                                  "Failed to delete TXT record on server"
                                  [zap.String "server" (snd g);
                                   zap.String "fqdn" fqdn; zap.Error err]
                  | None =>
                      zap.mkEntry zap.InfoLevel
                                  "Successfully deleted TXT record on server"
                                  [zap.String "server" (snd g);
                                   zap.String "fqdn" fqdn]
                  end)).
    + intros g' st. unfold MultiServerDNS.delete_body, delete_result.
      rewrite trace_bind, logs_app. apply in_or_app. right.
      destruct (returned (RFC2136Client.DeleteTXTRecord _ _ _ _));
        left; reflexivity.
    + apply Permutation_in with (l := indexed (MultiServerDNS.servers m));
        [apply Permutation_sym, wg_Wait_Permutation | exact Hin].
Qed.

Lemma coordinator_logs_every_attempt_witness :
  In (zap.mkEntry zap.ErrorLevel "Failed to delete TXT record on server"
                  [zap.String "server" "b"; zap.String "fqdn" Sample.fqdn;
                   zap.Error (errorString "DNS delete failed: REFUSED (rcode: 5)")])
     (logs (trace (MultiServerDNS.DeleteTXTRecord
                     Sample.lib Sample.one_up Sample.abc Sample.fqdn))).
Proof.
  exact (proj2 (coordinator_logs_every_attempt
                  Sample.lib Sample.one_up Sample.abc Sample.fqdn "tokenA" 60)
               (1%nat, "b") (or_intror (or_introl eq_refl))).
Defined.

(** X12: a single-server call, add or delete, logs two entries: one at
    Info level when it starts, and one when it ends, at Error level
    exactly when the call returns an error. *)
Theorem single_server_call_logs_entry_and_exit lib c p fqdn value ttl :
  (exists first last,
      logs (trace (RFC2136Client.AddTXTRecord lib c p fqdn value ttl))
      = [first; last]
      /\ zap.level first = zap.InfoLevel
      /\ zap.level last
         = if is_nil (returned (RFC2136Client.AddTXTRecord lib c p fqdn value ttl))
           then zap.InfoLevel else zap.ErrorLevel)
  /\ (exists first last,
         logs (trace (RFC2136Client.DeleteTXTRecord lib c p fqdn)) = [first; last]
         /\ zap.level first = zap.InfoLevel
         /\ zap.level last
            = if is_nil (returned (RFC2136Client.DeleteTXTRecord lib c p fqdn))
              then zap.InfoLevel else zap.ErrorLevel).
Proof.
  split.
  - unfold RFC2136Client.AddTXTRecord, ExchangeContext, bind, trace, returned.
    cbn [fst snd].
    destruct (exchange p _ _ _) as [reply|err];
      [destruct (negb (dns.Rcode reply =? dns.RcodeSuccess))|];
      do 2 eexists; repeat split.
  - unfold RFC2136Client.DeleteTXTRecord, ExchangeContext, bind, trace, returned.
    cbn [fst snd].
    destruct (exchange p _ _ _) as [reply|err];
      [destruct (negb (dns.Rcode reply =? dns.RcodeSuccess))|];
      do 2 eexists; repeat split.
Qed.

(** ** The order of completion *)

Lemma successes_ext res1 res2 l :
  (forall g, res1 g = res2 g) -> successes res1 l = successes res2 l.
Proof.
  intro H. unfold successes. f_equal. f_equal. apply filter_ext.
  intro g. now rewrite H.
Qed.

Lemma failures_ext res1 res2 l :
  (forall g, res1 g = res2 g) -> failures res1 l = failures res2 l.
Proof.
  intro H. unfold failures. apply flat_map_ext. intro g. now rewrite H.
Qed.

(** X13: the order in which the goroutines finish changes neither the
    outcome of the fan-out nor what is attempted: two worlds with the same
    servers give the same success or failure, the same errors up to their
    order, and the same exchanges up to their order, for add and for
    delete. *)
Theorem fan_out_is_blind_to_the_order_of_completion lib w1 w2 m fqdn value ttl :
  (forall i, peer w1 i = peer w2 i) ->
  is_nil (returned (MultiServerDNS.AddTXTRecord lib w1 m fqdn value ttl))
  = is_nil (returned (MultiServerDNS.AddTXTRecord lib w2 m fqdn value ttl))
  /\ Permutation (add_errors lib w1 m fqdn value ttl)
                 (add_errors lib w2 m fqdn value ttl)
  /\ Permutation
       (exchanges (trace (MultiServerDNS.AddTXTRecord lib w1 m fqdn value ttl)))
       (exchanges (trace (MultiServerDNS.AddTXTRecord lib w2 m fqdn value ttl)))
  /\ is_nil (returned (MultiServerDNS.DeleteTXTRecord lib w1 m fqdn))
     = is_nil (returned (MultiServerDNS.DeleteTXTRecord lib w2 m fqdn))
  /\ Permutation (delete_errors lib w1 m fqdn) (delete_errors lib w2 m fqdn)
  /\ Permutation
       (exchanges (trace (MultiServerDNS.DeleteTXTRecord lib w1 m fqdn)))
       (exchanges (trace (MultiServerDNS.DeleteTXTRecord lib w2 m fqdn))).
Proof.
  intro Hpeer.
  assert (Hadd : forall g, add_result lib w1 m fqdn value ttl g
                           = add_result lib w2 m fqdn value ttl g).
  { intro g. unfold add_result. now rewrite Hpeer. }
  assert (Hdel : forall g, delete_result lib w1 m fqdn g
                           = delete_result lib w2 m fqdn g).
  { intro g. unfold delete_result. now rewrite Hpeer. }
  assert (Hacall : forall g, add_call w1 m fqdn value ttl g
                             = add_call w2 m fqdn value ttl g).
  { intro g. unfold add_call. now rewrite Hpeer. }
  assert (Hdcall : forall g, delete_call w1 m fqdn g = delete_call w2 m fqdn g).
  { intro g. unfold delete_call. now rewrite Hpeer. }
  repeat split.
  - rewrite !coordinator_AddTXTRecord_returned. cbv zeta.
    rewrite (successes_ext _ _ _ Hadd).
    destruct (_ <? _); reflexivity.
  - unfold add_errors. rewrite (failures_ext _ _ _ Hadd).
    apply failures_Permutation.
    apply perm_trans with (indexed (MultiServerDNS.servers m));
      [|apply Permutation_sym]; apply wg_Wait_Permutation.
  - rewrite !coordinator_AddTXTRecord_exchanges.
    rewrite (map_ext _ _ Hacall). apply Permutation_map.
    apply perm_trans with (indexed (MultiServerDNS.servers m));
      [|apply Permutation_sym]; apply wg_Wait_Permutation.
  - rewrite !coordinator_DeleteTXTRecord_returned. cbv zeta.
    rewrite (successes_ext _ _ _ Hdel).
    destruct (_ =? _); reflexivity.
  - unfold delete_errors. rewrite (failures_ext _ _ _ Hdel).
    apply failures_Permutation.
    apply perm_trans with (indexed (MultiServerDNS.servers m));
      [|apply Permutation_sym]; apply wg_Wait_Permutation.
  - rewrite !coordinator_DeleteTXTRecord_exchanges.
    rewrite (map_ext _ _ Hdcall). apply Permutation_map.
    apply perm_trans with (indexed (MultiServerDNS.servers m));
      [|apply Permutation_sym]; apply wg_Wait_Permutation.
Qed.

Lemma fan_out_is_blind_to_the_order_of_completion_witness :
  Permutation
    (map snd (exchanges (trace (MultiServerDNS.AddTXTRecord
                                  Sample.lib Sample.two_up Sample.abc
                                  Sample.fqdn "tokenA" 60))))
    (map snd (exchanges (trace (MultiServerDNS.AddTXTRecord
                                  Sample.lib Sample.two_up_reversed Sample.abc
                                  Sample.fqdn "tokenA" 60)))).
Proof.
  apply Permutation_map.
  exact (proj1 (proj2 (proj2 (fan_out_is_blind_to_the_order_of_completion
                                Sample.lib Sample.two_up Sample.two_up_reversed
                                Sample.abc Sample.fqdn "tokenA" 60
                                (fun i => eq_refl))))).
Defined.

(** ** The threshold at its ends *)

Lemma successes_all res l :
  (forall g, In g l -> res g = None) -> successes res l = Z.of_nat (List.length l).
Proof.
  intro H. unfold successes. f_equal.
  induction l as [|g l IH]; [reflexivity|].
  simpl. rewrite (H g) by now left. simpl. f_equal.
  apply IH. intros g' Hin. apply H. now right.
Qed.

(** X14: with at least one configured server, a fan-out in which every
    single-server call succeeds succeeds, for add and for delete. *)
Theorem unanimous_fan_out_succeeds
    lib w servers zone tsigKey tsigAlg tsigSec fqdn value ttl :
  servers <> [] ->
  let m := MultiServerDNS.NewMultiServerDNS servers zone tsigKey tsigAlg tsigSec in
  ((forall g, In g (indexed servers) -> add_result lib w m fqdn value ttl g = None) ->
   returned (MultiServerDNS.AddTXTRecord lib w m fqdn value ttl) = None)
  /\ ((forall g, In g (indexed servers) -> delete_result lib w m fqdn g = None) ->
      returned (MultiServerDNS.DeleteTXTRecord lib w m fqdn) = None).
Proof.
  intros Hservers m.
  assert (HN : 1 <= Z.of_nat (List.length servers)).
  { destruct servers; [contradiction | simpl List.length; lia]. }
  split; intro Hall.
  - rewrite coordinator_AddTXTRecord_returned. cbv zeta.
    rewrite (minSuccess_majority servers zone tsigKey tsigAlg tsigSec
             : MultiServerDNS.minSuccess m = _).
    change (MultiServerDNS.servers m) with servers.
    rewrite (successes_all _ _ Hall), indexed_length.
    destruct (Z.ltb_spec (Z.of_nat (List.length servers))
                         (Z.of_nat (List.length servers) / 2 + 1)) as [Hlt|];
      [|reflexivity].
    pose proof (Z.div_lt (Z.of_nat (List.length servers)) 2) as Hdiv. lia.
  - rewrite coordinator_DeleteTXTRecord_returned. cbv zeta.
    change (MultiServerDNS.servers m) with servers.
    rewrite (successes_all _ _ Hall), indexed_length.
    destruct (Z.eqb_spec (Z.of_nat (List.length servers)) 0); [lia | reflexivity].
Qed.

Lemma unanimous_fan_out_succeeds_witness :
  returned (MultiServerDNS.AddTXTRecord Sample.lib Sample.all_up Sample.abc
                                        Sample.fqdn "tokenA" 60) = None
  /\ returned (MultiServerDNS.DeleteTXTRecord Sample.lib Sample.all_up Sample.abc
                                              Sample.fqdn) = None.
Proof.
  destruct (unanimous_fan_out_succeeds
              Sample.lib Sample.all_up ["a"; "b"; "c"] "example.com" "acme-key"
              "hmac-sha256" "c2VjcmV0" Sample.fqdn "tokenA" 60
              ltac:(discriminate)) as [Hadd Hdel].
  split; [apply Hadd | apply Hdel]; intros g _; reflexivity.
Defined.

(** X15: a coordinator without servers fails both operations without
    contacting anything: the threshold of the add is 1 although there is
    no server, and the delete has no success to count. *)
Theorem fan_out_over_no_server_fails lib w zone tsigKey tsigAlg tsigSec fqdn value ttl :
  let m := MultiServerDNS.NewMultiServerDNS [] zone tsigKey tsigAlg tsigSec in
  MultiServerDNS.minSuccess m = 1
  /\ returned (MultiServerDNS.AddTXTRecord lib w m fqdn value ttl)
     = Some (errorString
               "only 0/0 servers updated successfully (minimum 1 required): []")
  /\ exchanges (trace (MultiServerDNS.AddTXTRecord lib w m fqdn value ttl)) = []
  /\ returned (MultiServerDNS.DeleteTXTRecord lib w m fqdn)
     = Some (errorString "failed to delete on all servers: []")
  /\ exchanges (trace (MultiServerDNS.DeleteTXTRecord lib w m fqdn)) = [].
Proof. repeat split. Qed.

(** ** Two majorities meet *)

Lemma filter_overlap {A : Type} (f g : A -> bool) (l : list A) :
  (List.length l < List.length (filter f l) + List.length (filter g l))%nat ->
  exists x, In x l /\ f x = true /\ g x = true.
Proof.
  induction l as [|a l IH]; simpl; [lia|].
  destruct (f a) eqn:Hf, (g a) eqn:Hg; simpl; intro H.
  - exists a. auto.
  - destruct IH as (x & Hin & Hx); [lia | exists x; auto].
  - destruct IH as (x & Hin & Hx); [lia | exists x; auto].
  - destruct IH as (x & Hin & Hx); [lia | exists x; auto].
Qed.

(** X16: two adds that succeed over the same list of servers have a
    server in common on which both single-server adds succeeded, whatever
    the names, the values and the behaviour of the servers in the two
    calls: the threshold of more than half makes any two successful
    publications overlap. *)
Theorem successful_adds_share_a_server
    lib w1 w2 servers zone tsigKey tsigAlg tsigSec
    fqdn1 value1 ttl1 fqdn2 value2 ttl2 :
  let m := MultiServerDNS.NewMultiServerDNS servers zone tsigKey tsigAlg tsigSec in
  returned (MultiServerDNS.AddTXTRecord lib w1 m fqdn1 value1 ttl1) = None ->
  returned (MultiServerDNS.AddTXTRecord lib w2 m fqdn2 value2 ttl2) = None ->
  exists g,
    In g (indexed servers)
    /\ add_result lib w1 m fqdn1 value1 ttl1 g = None
    /\ add_result lib w2 m fqdn2 value2 ttl2 g = None.
Proof.
  intros m H1 H2.
  rewrite coordinator_AddTXTRecord_returned in H1, H2. cbv zeta in H1, H2.
  rewrite (minSuccess_majority servers zone tsigKey tsigAlg tsigSec
           : MultiServerDNS.minSuccess m = _) in H1, H2.
  change (MultiServerDNS.servers m) with servers in H1, H2.
  destruct (Z.ltb_spec (successes (add_result lib w1 m fqdn1 value1 ttl1)
                                  (indexed servers))
                       (Z.of_nat (List.length servers) / 2 + 1)) as [|Hle1];
    [discriminate|].
  destruct (Z.ltb_spec (successes (add_result lib w2 m fqdn2 value2 ttl2)
                                  (indexed servers))
                       (Z.of_nat (List.length servers) / 2 + 1)) as [|Hle2];
    [discriminate|].
  unfold successes in Hle1, Hle2.
  destruct (filter_overlap
              (fun g => is_nil (add_result lib w1 m fqdn1 value1 ttl1 g))
              (fun g => is_nil (add_result lib w2 m fqdn2 value2 ttl2 g))
              (indexed servers)) as (g & Hin & Hg1 & Hg2).
  - rewrite indexed_length.
    pose proof (Z.mul_div_le (Z.of_nat (List.length servers)) 2 ltac:(lia)).
    pose proof (Z.mod_pos_bound (Z.of_nat (List.length servers)) 2 ltac:(lia)).
    pose proof (Z.div_mod (Z.of_nat (List.length servers)) 2 ltac:(lia)).
    lia.
  - exists g. split; [exact Hin|].
    destruct (add_result lib w1 m fqdn1 value1 ttl1 g),
             (add_result lib w2 m fqdn2 value2 ttl2 g);
      try discriminate. split; reflexivity.
Qed.

Lemma successful_adds_share_a_server_witness :
  exists g,
    In g (indexed ["a"; "b"; "c"])
    /\ add_result Sample.lib Sample.two_up Sample.abc Sample.fqdn "tokenA" 60 g
       = None
    /\ add_result Sample.lib Sample.last_two_up Sample.abc
                  Sample.outside_fqdn "tokenB" 120 g = None.
Proof.
  exact (successful_adds_share_a_server
           Sample.lib Sample.two_up Sample.last_two_up ["a"; "b"; "c"]
           "example.com" "acme-key" "hmac-sha256" "c2VjcmV0"
           Sample.fqdn "tokenA" 60 Sample.outside_fqdn "tokenB" 120
           eq_refl eq_refl).
Defined.

(** ** The challenge key in [CleanUp] *)

(** X17: [CleanUp] uses the challenge key for nothing but its first log
    entry: with another key in the same challenge it returns the same
    result, reads the same secret, sends the same messages to the same
    servers and logs the same entries after the first. *)
Theorem CleanUp_ignores_the_challenge_key lib w s fqdn key1 key2 namespace config :
  let ch1 := v1alpha1.mkChallengeRequest fqdn key1 namespace config in
  let ch2 := v1alpha1.mkChallengeRequest fqdn key2 namespace config in
  returned (DNS01Solver.CleanUp lib w s ch1) = returned (DNS01Solver.CleanUp lib w s ch2)
  /\ exchanges (trace (DNS01Solver.CleanUp lib w s ch1))
     = exchanges (trace (DNS01Solver.CleanUp lib w s ch2))
  /\ secret_reads (trace (DNS01Solver.CleanUp lib w s ch1))
     = secret_reads (trace (DNS01Solver.CleanUp lib w s ch2))
  /\ tl (logs (trace (DNS01Solver.CleanUp lib w s ch1)))
     = tl (logs (trace (DNS01Solver.CleanUp lib w s ch2))).
Proof. repeat split. Qed.

(** ** More successes never hurt *)

Lemma successes_le res1 res2 l :
  (forall g, In g l -> res1 g = None -> res2 g = None) ->
  successes res1 l <= successes res2 l.
Proof.
  intro H. unfold successes. apply inj_le.
  induction l as [|g l IH]; [apply le_n|].
  assert (IHl : (List.length (filter (fun g => is_nil (res1 g)) l)
                 <= List.length (filter (fun g => is_nil (res2 g)) l))%nat).
  { apply IH. intros g' Hin. apply H. now right. }
  simpl. destruct (res1 g) as [e1|] eqn:H1; simpl.
  - destruct (is_nil (res2 g)); simpl; lia.
  - rewrite (H g (or_introl eq_refl) H1). simpl. lia.
Qed.

(** X18: the fan-out is monotone in the servers: if an add (or a delete)
    succeeds, it also succeeds in any world in which every server that
    accepted the update still accepts it. *)
Theorem fan_out_is_monotone lib w1 w2 m fqdn value ttl :
  ((forall g, In g (indexed (MultiServerDNS.servers m)) ->
              add_result lib w1 m fqdn value ttl g = None ->
              add_result lib w2 m fqdn value ttl g = None) ->
   returned (MultiServerDNS.AddTXTRecord lib w1 m fqdn value ttl) = None ->
   returned (MultiServerDNS.AddTXTRecord lib w2 m fqdn value ttl) = None)
  /\ ((forall g, In g (indexed (MultiServerDNS.servers m)) ->
                 delete_result lib w1 m fqdn g = None ->
                 delete_result lib w2 m fqdn g = None) ->
      returned (MultiServerDNS.DeleteTXTRecord lib w1 m fqdn) = None ->
      returned (MultiServerDNS.DeleteTXTRecord lib w2 m fqdn) = None).
Proof.
  split; intros Hmono.
  - rewrite !coordinator_AddTXTRecord_returned. cbv zeta.
    pose proof (successes_le _ _ _ Hmono) as Hle.
    destruct (Z.ltb_spec (successes (add_result lib w1 m fqdn value ttl)
                                    (indexed (MultiServerDNS.servers m)))
                         (MultiServerDNS.minSuccess m)); [discriminate|].
    destruct (Z.ltb_spec (successes (add_result lib w2 m fqdn value ttl)
                                    (indexed (MultiServerDNS.servers m)))
                         (MultiServerDNS.minSuccess m)); [lia | reflexivity].
  - rewrite !coordinator_DeleteTXTRecord_returned. cbv zeta.
    pose proof (successes_le _ _ _ Hmono) as Hle.
    pose proof (successes_bounds (delete_result lib w1 m fqdn)
                                 (indexed (MultiServerDNS.servers m))).
    destruct (Z.eqb_spec (successes (delete_result lib w1 m fqdn)
                                    (indexed (MultiServerDNS.servers m))) 0);
      [discriminate|].
    destruct (Z.eqb_spec (successes (delete_result lib w2 m fqdn)
                                    (indexed (MultiServerDNS.servers m))) 0);
      [lia | reflexivity].
Qed.

Lemma fan_out_is_monotone_witness :
  returned (MultiServerDNS.AddTXTRecord Sample.lib Sample.all_up Sample.abc
                                        Sample.fqdn "tokenA" 60) = None.
Proof.
  apply (proj1 (fan_out_is_monotone Sample.lib Sample.two_up Sample.all_up
                                    Sample.abc Sample.fqdn "tokenA" 60)).
  - intros g _ _. reflexivity.
  - reflexivity.
Defined.
